(** * prefect.tasks: task identity, state proposals, the task-run loop
      and the call surface of [Task]

    A shallow embedding of [src/prefect/tasks.py].  Python objects become
    records, the remote authority, the executor, the wrapped callable and
    the clock become oracles of an environment, and every call the module
    makes to them is logged in a trace, so that statements such as "no run
    was registered" or "the callable was never invoked" are statements
    about that trace. *)

From stdpp Require Import base option list sorting gmap strings.
From Stdlib Require Import ZArith.

Local Open Scope Z_scope.
Local Open Scope string_scope.
Local Open Scope list_scope.

(** ** Python values *)

(** An exception object: the method resolution order of its class (the
    class itself first) and its message.  [isinstance(exc, Exception)] is
    membership of ["Exception"] in that order. *)
Record PyException := mkExc {
  exc_mro : list string;
  exc_msg : string
}.

Definition isinstance (e : PyException) (cls : string) : bool :=
  bool_decide (cls ∈ exc_mro e).

Definition RuntimeError (msg : string) : PyException :=
  mkExc ["RuntimeError"; "Exception"; "BaseException"; "object"] msg.
Definition TypeError (msg : string) : PyException :=
  mkExc ["TypeError"; "Exception"; "BaseException"; "object"] msg.
Definition AttributeError (msg : string) : PyException :=
  mkExc ["AttributeError"; "Exception"; "BaseException"; "object"] msg.
Definition SystemExit (msg : string) : PyException :=
  mkExc ["SystemExit"; "BaseException"; "object"] msg.

(** The values a task callable receives and produces; a state's [data]
    holds one of them (a result, or a captured exception). *)
Inductive PyObj :=
| PyNone
| PyInt (n : Z)
| PyStr (s : string)
| PyExc (e : PyException).

Definition UUID := string.

(** Instants are microseconds since the epoch, durations microseconds;
    pendulum's [Duration.in_seconds()] is [int(total_seconds())], the
    whole seconds of the duration, rounded towards zero. *)
Definition DateTime := Z.
Definition Duration := Z.
Definition in_seconds (d : Duration) : Z := Z.quot d 1000000.

(** ** States and responses (prefect.orion.schemas) *)

(** Modelled from the spec: [StateType] is declared in
    prefect.orion.schemas.states, which is not part of the sources; the
    tags are those of the data model (section 3). *)
Inductive StateType :=
| SCHEDULED | PENDING | RUNNING | COMPLETED | FAILED | RETRYING.

(** Modelled from the spec: [StateDetails] (same module); the loop reads
    its [scheduled_time] only. *)
Record StateDetails := mkStateDetails {
  scheduled_time : option DateTime
}.

(** Modelled from the spec: [State] (same module), with the attributes
    tasks.py passes to its constructor ([type], [message], [data]) and
    the [state_details] attribute it reads and assigns. *)
Record State := mkState {
  type : StateType;
  message : option string;
  data : PyObj;
  state_details : StateDetails
}.

(** [State(type=t)]: no message, no data, empty details. *)
Definition new_State (t : StateType) : State :=
  mkState t None PyNone (mkStateDetails None).

(** [state.state_details = d] *)
Definition set_state_details (state : State) (d : StateDetails) : State :=
  mkState (type state) (message state) (data state) d.

(** Modelled from the spec: [SetStateStatus] of
    prefect.orion.schemas.responses (section 6: ACCEPT, ABORT, or any
    other verdict). *)
Inductive SetStateStatus := ACCEPT | ABORT | OTHER.

(** Modelled from the spec: the details of a response (section 6:
    [details: {state?, state_details?}]); an absent member is [None]. *)
Record ResponseDetails := mkDetails {
  details_state : option State;
  details_state_details : option StateDetails
}.

Record SetStateResponse := mkResponse {
  status : SetStateStatus;
  details : ResponseDetails
}.

Global Instance StateType_eq_dec : EqDecision StateType.
Proof. solve_decision. Defined.
Global Instance SetStateStatus_eq_dec : EqDecision SetStateStatus.
Proof. solve_decision. Defined.

(** What tasks.py uses of the [State] class without defining it: the two
    predicates of the loop and the [Retrying()] constructor. *)
Class StateSchema := {
  is_running : State -> bool;
  is_scheduled : State -> bool;
  Retrying : State
}.

(** A schema respects terminal states when neither predicate holds of a
    COMPLETED or FAILED state. *)
Class TerminalSchema (schema : StateSchema) : Prop := {
  terminal_not_running :
    forall s, type s = COMPLETED \/ type s = FAILED -> is_running s = false;
  terminal_not_scheduled :
    forall s, type s = COMPLETED \/ type s = FAILED -> is_scheduled s = false
}.

(** Modelled from the spec: the schema of section 4.3, where a state is
    scheduled when its tag is SCHEDULED, the proposal after a wait is a
    RETRYING state, and an accepted RETRYING state is RUNNING-equivalent. *)
Definition spec_schema : StateSchema := {|
  is_running s := bool_decide (type s = RUNNING \/ type s = RETRYING);
  is_scheduled s := bool_decide (type s = SCHEDULED);
  Retrying := new_State RETRYING
|}.

(** ** Tasks *)

(** A Python callable as [Task.__init__] looks at it: [fn.__name__], the
    qualified identity [to_qualified_name] hashes, [inspect.getdoc(fn)],
    and the function's attribute dictionary [fn.__dict__] (empty for a
    plain function). *)
Record Callable := mkCallable {
  fn_name : string;
  fn_module : string;
  fn_qualname : string;
  fn_getdoc : option string;
  fn_dict : gmap string string
}.

(** The [fn] argument of the constructor. *)
Inductive FnArg :=
| FnNone                       (* omitted, or None *)
| FnObject (truthy : bool)     (* some object that is not callable *)
| FnCallable (f : Callable).

Record Task := mkTask {
  name : string;
  description : option string;
  fn : Callable;
  tags : gset string;
  task_key : string;
  dynamic_key : Z;
  max_retries : Z;
  retry_delay_seconds : Z
}.

(** ** The world a task runs in *)

Record FlowRunContext := mkFlowRunContext {
  flow_run_id : UUID
}.

(** The context entered around the callable; its [task] and [client]
    members are the running task and the client of the loop. *)
Record TaskRunContext := mkTaskRunContext {
  ctx_task_run_id : UUID;
  ctx_flow_run_id : UUID
}.

(** What [Task.__call__] hands to [executor.submit] next to the bound
    method [self._run]. *)
Record Submission := mkSubmission {
  sub_task_run_id : UUID;
  sub_flow_run_id : UUID;
  sub_call_args : list PyObj;
  sub_call_kwargs : list (string * PyObj)
}.

Record PrefectFuture := mkFuture {
  future_run_id : UUID
}.

(** The calls the module makes to its collaborators, in program order. *)
Inductive Event :=
| ev_create_task_run (task : Task) (flow_run : UUID)
| ev_set_task_run_state (task_run : UUID) (state : State)
| ev_submit (task_run : UUID) (job : Submission)
| ev_fn (args : list PyObj) (kwargs : list (string * PyObj))
| ev_print (line : string)
| ev_now
| ev_sleep (seconds : Z).

Record World := mkWorld {
  self : Task;
  flow_run_context : option FlowRunContext;
  task_run_context : option TaskRunContext;
  trace : list Event
}.

Definition log (ev : Event) (w : World) : World :=
  mkWorld (self w) (flow_run_context w) (task_run_context w) (trace w ++ [ev]).

(** What a collaborator answers: a value, or an exception. *)
Inductive Reply (A : Type) :=
| Returns (a : A)
| Raises (e : PyException).
Arguments Returns {A} a.
Arguments Raises {A} e.

(** The collaborators.  Each answer may depend on everything that
    happened so far (the world, with its trace) and on the arguments. *)
Record Env := mkEnv {
  remote_set_task_run_state : World -> UUID -> State -> Reply SetStateResponse;
  remote_create_task_run : World -> Task -> UUID -> Reply UUID;
  executor_submit : World -> UUID -> Submission -> Reply PrefectFuture;
  fn_behaviour :
    World -> Callable -> list PyObj -> list (string * PyObj) -> Reply PyObj;
  pendulum_now : World -> DateTime
}.

(** ** Computations: state, exceptions, and a loop that may not end *)

Inductive Result (A : Type) :=
| Ok (a : A)
| Raise (e : PyException)
| Diverge.
Arguments Ok {A} a.
Arguments Raise {A} e.
Arguments Diverge {A}.

Definition M (A : Type) : Type := World -> Result A * World.

Definition ret {A} (a : A) : M A := fun w => (Ok a, w).

Definition bind {A B} (m : M A) (k : A -> M B) : M B :=
  fun w =>
    match m w with
    | (Ok a, w') => k a w'
    | (Raise e, w') => (Raise e, w')
    | (Diverge, w') => (Diverge, w')
    end.

Definition raise {A} (e : PyException) : M A := fun w => (Raise e, w).

Definition diverge {A} : M A := fun w => (Diverge, w).

Declare Scope py_scope.
Delimit Scope py_scope with py.
Notation "x <- c1 ;; c2" := (bind c1 (fun x => c2))
  (at level 100, c1 at next level, right associativity) : py_scope.
Notation "c1 ;; c2" := (bind c1 (fun _ => c2))
  (at level 100, right associativity) : py_scope.
Local Open Scope py_scope.

(** [w'] is [w] after more calls: the task and the contexts are the
    same, and the trace has grown at its end. *)
Definition extends (w w' : World) : Prop :=
  self w' = self w /\
  flow_run_context w' = flow_run_context w /\
  task_run_context w' = task_run_context w /\
  exists calls, trace w' = trace w ++ calls.

(** An oracle's reply, after the call has been logged. *)
Definition perform {A} (ev : Event) (answer : World -> Reply A) : M A :=
  fun w =>
    match answer w with
    | Returns a => (Ok a, log ev w)
    | Raises e => (Raise e, log ev w)
    end.

(** [try: body / except cls as exc: handler / else: orelse] *)
Definition try_except_else {A B}
    (body : M A) (cls : string)
    (handler : PyException -> M B) (orelse : A -> M B) : M B :=
  fun w =>
    match body w with
    | (Ok a, w') => orelse a w'
    | (Raise e, w') =>
        if isinstance e cls then handler e w' else (Raise e, w')
    | (Diverge, w') => (Diverge, w')
    end.

(** [with TaskRunContext(...): body]: the context is current during the
    body and the previous one is restored on every way out. *)
Definition with_TaskRunContext {A} (ctx : TaskRunContext) (body : M A) : M A :=
  fun w =>
    let outer := task_run_context w in
    let '(r, w') :=
      body (mkWorld (self w) (flow_run_context w) (Some ctx) (trace w)) in
    (r, mkWorld (self w') (flow_run_context w') outer (trace w')).

Definition FlowRunContext_get : M (option FlowRunContext) :=
  fun w => (Ok (flow_run_context w), w).

Definition TaskRunContext_get : M (option TaskRunContext) :=
  fun w => (Ok (task_run_context w), w).

Definition get_self : M Task := fun w => (Ok (self w), w).

(** [task.dynamic_key = k] *)
Definition with_dynamic_key (t : Task) (k : Z) : Task :=
  mkTask (name t) (description t) (fn t) (tags t) (task_key t) k
         (max_retries t) (retry_delay_seconds t).

Definition set_dynamic_key (k : Z) : M unit :=
  fun w =>
    (Ok tt,
     mkWorld (with_dynamic_key (self w) k)
             (flow_run_context w) (task_run_context w) (trace w)).

Section Program.

Context (env : Env) {schema : StateSchema}.

Definition set_task_run_state (task_run_id : UUID) (state : State)
  : M SetStateResponse :=
  perform (ev_set_task_run_state task_run_id state)
          (fun w => remote_set_task_run_state env w task_run_id state).

Definition create_task_run (task : Task) (flow_run : UUID) : M UUID :=
  perform (ev_create_task_run task flow_run)
          (fun w => remote_create_task_run env w task flow_run).

Definition submit (task_run_id : UUID) (job : Submission) : M PrefectFuture :=
  perform (ev_submit task_run_id job)
          (fun w => executor_submit env w task_run_id job).

Definition call_fn (f : Callable) (args : list PyObj)
    (kwargs : list (string * PyObj)) : M PyObj :=
  perform (ev_fn args kwargs) (fun w => fn_behaviour env w f args kwargs).

Definition now : M DateTime :=
  perform ev_now (fun w => Returns (pendulum_now env w)).

Definition sleep (seconds : Z) : M unit :=
  perform (ev_sleep seconds) (fun _ => Returns tt).

Definition print (line : string) : M unit :=
  perform (ev_print line) (fun _ => Returns tt).

(** ** propose_state (lines 15-30)

    The result is what the Python function returns: a state object, or
    [None] when the response of another verdict carries no state.  On
    ACCEPT the function assigns [state_details] on the object it was
    given and returns that object; its value after the assignment is what
    is returned here. *)
Definition propose_state (task_run_id : UUID) (state : State)
  : M (option State) :=
  response <- set_task_run_state task_run_id state ;;
  if decide (status response = ACCEPT) then
    match details_state_details (details response) with
    | Some d => ret (Some (set_state_details state d))
    | None => ret (Some state)
    end
  else if decide (status response = ABORT) then
    raise (RuntimeError "ABORT is not yet handled")
  else
    ret (details_state (details response)).

(** ** Task._run (lines 78-125) *)

Definition failed_state (exc : PyException) : State :=
  mkState FAILED (Some "Task run encountered an exception.") (PyExc exc)
          (mkStateDetails None).

Definition completed_state (result : PyObj) : State :=
  mkState COMPLETED (Some "Task run completed.") result (mkStateDetails None).

(** The terminal states the loop proposes. *)
Definition terminal (st : State) : Prop :=
  (exists v, st = completed_state v) \/
  (exists e, st = failed_state e /\ isinstance e "Exception" = true).

(** The world the callable sees: the caller's, with the task-run context
    of this run current. *)
Definition inside (task_run_id flow_run_id : UUID) (w : World) : World :=
  mkWorld (self w) (flow_run_context w)
          (Some (mkTaskRunContext task_run_id flow_run_id)) (trace w).

(** Lines 95-114: the callable inside its context, and the terminal state
    built from its outcome. *)
Definition run_fn (task_run_id flow_run_id : UUID)
    (call_args : list PyObj) (call_kwargs : list (string * PyObj)) : M State :=
  try_except_else
    (with_TaskRunContext (mkTaskRunContext task_run_id flow_run_id)
       (f <- get_self ;; call_fn (fn f) call_args call_kwargs))
    "Exception"
    (fun exc => ret (failed_state exc))
    (fun result => ret (completed_state result)).

(** Lines 116-123: the terminal state is proposed and the state that
    comes back decides; [continue] is the way back to the running-check.
    A method call on [None] is Python's AttributeError, and
    [None - pendulum.now()] its TypeError. *)
Definition negotiate (continue : option State -> M State)
    (task_run_id : UUID) (terminal_state : State) : M State :=
  state <- propose_state task_run_id terminal_state ;;
  match state with
  | None =>
      raise (AttributeError "'NoneType' object has no attribute 'is_scheduled'")
  | Some st =>
      if is_scheduled st then
        print "Awaiting scheduled start time..." ;;
        t <- now ;;
        match scheduled_time (state_details st) with
        | None =>
            raise (TypeError
              "unsupported operand type(s) for -: 'NoneType' and 'DateTime'")
        | Some scheduled =>
            sleep (Z.max (in_seconds (scheduled - t)) 0) ;;
            state <- propose_state task_run_id Retrying ;;
            continue state
        end
      else continue (Some st)
  end.

(** Lines 95-123: the body of the loop. *)
Definition loop_body (continue : option State -> M State)
    (task_run_id flow_run_id : UUID)
    (call_args : list PyObj) (call_kwargs : list (string * PyObj)) : M State :=
  terminal_state <- run_fn task_run_id flow_run_id call_args call_kwargs ;;
  negotiate continue task_run_id terminal_state.

(** Lines 93-125: the loop, entered with the state the last proposal
    returned.  The fuel bounds the number of times the body runs; the
    running-check itself needs none. *)
Fixpoint while_running (fuel : nat) (task_run_id flow_run_id : UUID)
    (call_args : list PyObj) (call_kwargs : list (string * PyObj))
    (state : option State) : M State :=
  match state with
  | None =>
      raise (AttributeError "'NoneType' object has no attribute 'is_running'")
  | Some st =>
      if is_running st then
        match fuel with
        | O => diverge
        | S fuel' =>
            loop_body
              (while_running fuel' task_run_id flow_run_id call_args call_kwargs)
              task_run_id flow_run_id call_args call_kwargs
        end
      else ret st
  end.

(** Lines 87-125.  The client built on line 87 is the handle to the
    remote authority, here [env]. *)
Definition _run (fuel : nat) (task_run_id flow_run_id : UUID)
    (call_args : list PyObj) (call_kwargs : list (string * PyObj)) : M State :=
  state <- propose_state task_run_id (new_State RUNNING) ;;
  while_running fuel task_run_id flow_run_id call_args call_kwargs state.

(** The exceptions that end a run: the refusal of [propose_state], a
    failure of the client's call, an exception of the callable that
    [except Exception] lets through, and the two operations on [None]. *)
Inductive fatal : PyException -> Prop :=
| fatal_abort : fatal (RuntimeError "ABORT is not yet handled")
| fatal_client w task_run_id st e :
    remote_set_task_run_state env w task_run_id st = Raises e -> fatal e
| fatal_callable w f args kwargs e :
    fn_behaviour env w f args kwargs = Raises e ->
    isinstance e "Exception" = false ->
    fatal e
| fatal_no_state attr :
    fatal (AttributeError
             ("'NoneType' object has no attribute '" +:+ attr +:+ "'"))
| fatal_no_time :
    fatal (TypeError
             "unsupported operand type(s) for -: 'NoneType' and 'DateTime'").

(** ** Task.__call__ (lines 129-164) *)

Definition outside_flow_message : string :=
  "Tasks cannot be called outside of a flow.".

Definition within_task_message : string :=
  "Tasks cannot be called from within tasks. Did you mean to call this task in a flow?".

Definition __call__ (args : list PyObj) (kwargs : list (string * PyObj))
  : M PrefectFuture :=
  flow_run_context <- FlowRunContext_get ;;
  match flow_run_context with
  | None => raise (RuntimeError outside_flow_message)
  | Some flow_ctx =>
      task_ctx <- TaskRunContext_get ;;
      match task_ctx with
      | Some _ => raise (RuntimeError within_task_message)
      | None =>
          task <- get_self ;;
          task_run_id <- create_task_run task (flow_run_id flow_ctx) ;;
          set_task_run_state task_run_id (new_State PENDING) ;;
          future <-
            submit task_run_id
                   (mkSubmission task_run_id (flow_run_id flow_ctx) args kwargs) ;;
          task <- get_self ;;
          set_dynamic_key (dynamic_key task + 1) ;;
          ret future
      end
  end.

(** Calls of the task one after the other, in a flow that carries on
    after a call that raised; the result counts the calls that returned
    a future. *)
Fixpoint call_each (calls : list (list PyObj * list (string * PyObj)))
    (w : World) : nat * World :=
  match calls with
  | [] => (O, w)
  | (args, kwargs) :: rest =>
      match __call__ args kwargs w with
      | (Ok _, w') => let '(n, w'') := call_each rest w' in (S n, w'')
      | (_, w') => call_each rest w'
      end
  end.

End Program.

(** ** Task.__init__ (lines 38-76) *)

(** What the constructor imports from prefect.utilities.hashing, which is
    not part of the sources, and Python's [str] of a list of strings. *)
Class Hashing := {
  stable_hash : list string -> string;
  to_qualified_name : Callable -> string;
  str : list string -> string
}.

(** [sorted] on strings: ascending in the order of their characters. *)
Definition sorted (l : list string) : list string := merge_sort String.le l.

(** [x or y] for an optional string: [None] and the empty string are
    falsy. *)
Definition str_or (x : option string) (y : option string) : option string :=
  match x with
  | Some (String c s) => Some (String c s)
  | _ => y
  end.

(** Lines 64-68: the key, from the attributes already assigned. *)
Definition derive_task_key `{Hashing}
    (name' : string) (fn' : Callable) (tags' : gset string) : string :=
  stable_hash
    [ name';
      to_qualified_name fn';
      str (sorted (if decide (tags' = ∅) then [] else elements tags')) ].

Definition __init__ `{Hashing}
    (name' : option string) (fn' : FnArg) (description' : option string)
    (tags' : option (list string)) (max_retries' retry_delay_seconds' : Z)
  : Result Task :=
  match fn' with
  | FnNone | FnObject false =>
      Raise (TypeError "__init__() missing 1 required argument: 'fn'")
  | FnObject true => Raise (TypeError "'fn' must be callable")
  | FnCallable f =>
      let self_name := default (fn_name f) (str_or name' None) in
      let self_description := str_or description' (fn_getdoc f) in
      (* update_wrapper(self, fn) ends with
         self.__dict__.update(fn.__dict__) *)
      let self_name := default self_name (fn_dict f !! "name") in
      let self_description :=
        match fn_dict f !! "description" with
        | Some d => Some d
        | None => self_description
        end in
      let self_tags : gset string :=
        list_to_set (match tags' with
                     | Some (t :: l) => t :: l
                     | _ => []
                     end) in
      Ok (mkTask self_name self_description f self_tags
                 (derive_task_key self_name f self_tags)
                 0 max_retries' retry_delay_seconds')
  end.

(** A stand-in for the hashing utilities, to run the constructor on
    examples: the qualified name is module and qualified name joined by a
    dot, and the digest is replaced by the concatenation of its inputs. *)
Definition example_hashing : Hashing := {|
  stable_hash l := String.concat "|" l;
  to_qualified_name f := fn_module f +:+ "." +:+ fn_qualname f;
  str l := "[" +:+ String.concat ", " l +:+ "]"
|}.

(** ** Example worlds and collaborators *)

Definition add_one : Callable :=
  mkCallable "add_one" "flows" "add_one" (Some "Adds one.") ∅.

Definition example_task : Task :=
  let H := example_hashing in
  match __init__ None (FnCallable add_one) None (Some ["b"; "a"]) 3 10 with
  | Ok t => t
  | _ => mkTask "add_one" None add_one ∅ "unkeyed" 0 0 0
  end.

(** Inside a flow run, outside any task run. *)
Definition in_flow : World :=
  mkWorld example_task (Some (mkFlowRunContext "flow-run-1")) None [].

(** No context at all. *)
Definition outside_flow : World := mkWorld example_task None None [].

(** Inside a task run whose worker sees no flow-run context. *)
Definition in_task_only : World :=
  mkWorld example_task None (Some (mkTaskRunContext "task-run-0" "flow-run-1")) [].

(** Inside a task run of a flow run. *)
Definition in_task_in_flow : World :=
  mkWorld example_task (Some (mkFlowRunContext "flow-run-1"))
          (Some (mkTaskRunContext "task-run-0" "flow-run-1")) [].

(** Collaborators described by the verdict on each proposed state, the
    outcome of the callable and the reading of the clock. *)
Definition scripted (verdict : State -> Reply SetStateResponse)
    (outcome : Reply PyObj) (clock : DateTime) : Env :=
  mkEnv (fun _ _ st => verdict st)
        (fun _ _ _ => Returns "task-run-1")
        (fun _ task_run _ => Returns (mkFuture task_run))
        (fun _ _ _ _ => outcome)
        (fun _ => clock).

Definition accept : SetStateResponse := mkResponse ACCEPT (mkDetails None None).

Definition accept_with (d : StateDetails) : SetStateResponse :=
  mkResponse ACCEPT (mkDetails None (Some d)).

Definition substitute (st : State) : SetStateResponse :=
  mkResponse OTHER (mkDetails (Some st) None).

Definition abort : SetStateResponse := mkResponse ABORT (mkDetails None None).

Definition scheduled_at (t : DateTime) : State :=
  mkState SCHEDULED None PyNone (mkStateDetails (Some t)).

(** Every proposal accepted as it is; the callable returns 42. *)
Definition accepting : Env :=
  scripted (fun _ => Returns accept) (Returns (PyInt 42)) 0.

(** Every proposal accepted, with details the server adds. *)
Definition detailing : Env :=
  scripted (fun _ => Returns (accept_with (mkStateDetails (Some 5000000))))
           (Returns (PyInt 42)) 0.

(** Every proposal accepted; the callable raises a ValueError. *)
Definition ValueError (msg : string) : PyException :=
  mkExc ["ValueError"; "Exception"; "BaseException"; "object"] msg.

Definition accepting_failure : Env :=
  scripted (fun _ => Returns accept) (Raises (ValueError "bad input")) 0.

(** Every proposal accepted; the callable calls [sys.exit(1)]. *)
Definition accepting_exit : Env :=
  scripted (fun _ => Returns accept) (Raises (SystemExit "1")) 0.

(** The authority refuses to let the run start. *)
Definition refusing : Env :=
  scripted (fun _ => Returns (substitute (new_State PENDING)))
           (Returns (PyInt 42)) 0.

(** The authority aborts every proposal. *)
Definition aborting : Env :=
  scripted (fun _ => Returns abort) (Returns (PyInt 42)) 0.

(** The authority accepts RUNNING, answers the terminal proposal with a
    retry scheduled 1.5 seconds after the clock's reading, and answers
    the RETRYING proposal with a new schedule instead of accepting it. *)
Definition rescheduling : Env :=
  scripted
    (fun st =>
       match type st with
       | RUNNING => Returns accept
       | RETRYING => Returns (substitute (scheduled_at 9000000))
       | _ => Returns (substitute (scheduled_at 1500000))
       end)
    (Returns (PyInt 42)) 0.

(** The authority accepts RUNNING and cannot be reached afterwards. *)
Definition ConnectionError (msg : string) : PyException :=
  mkExc ["ConnectionError"; "OSError"; "Exception"; "BaseException"; "object"]
        msg.

Definition unreachable : Env :=
  scripted
    (fun st =>
       match type st with
       | RUNNING => Returns accept
       | _ => Raises (ConnectionError "connection refused")
       end)
    (Returns (PyInt 42)) 0.

(** The authority accepts RUNNING, answers the first terminal proposal
    with a retry scheduled two seconds after the clock's reading, accepts
    the RETRYING proposal, and accepts the terminal proposal of the
    second attempt: it tells the attempts apart by the wait in the
    trace. *)
Definition waited (w : World) : bool :=
  existsb (fun ev => match ev with ev_sleep _ => true | _ => false end)
          (trace w).

Definition retrying_once : Env :=
  mkEnv (fun w _ st =>
           match type st with
           | COMPLETED | FAILED =>
               if waited w then Returns accept
               else Returns (substitute (scheduled_at 2000000))
           | _ => Returns accept
           end)
        (fun _ _ _ => Returns "task-run-1")
        (fun _ task_run _ => Returns (mkFuture task_run))
        (fun _ _ _ _ => Returns (PyInt 42))
        (fun _ => 0).

(** The example run, step by step: the RUNNING proposal went out, the
    callable was called, the terminal state was proposed. *)
Definition started : World :=
  log (ev_set_task_run_state "task-run-1" (new_State RUNNING)) in_flow.

Definition called : World := log (ev_fn [PyInt 41] []) started.

Definition proposed (terminal_state : State) : World :=
  log (ev_set_task_run_state "task-run-1" terminal_state) called.

(** The rescheduled run, when its RETRYING proposal has been accepted. *)
Definition retried : World :=
  log (ev_set_task_run_state "task-run-1" (new_State RETRYING))
    (log (ev_sleep 2)
       (log ev_now
          (log (ev_print "Awaiting scheduled start time...")
             (proposed (completed_state (PyInt 42)))))).

(** Three calls of the example task. *)
Definition three_calls : list (list PyObj * list (string * PyObj)) :=
  [([PyInt 1], []); ([PyInt 2], []); ([], [("x", PyInt 3)])].

(** ** task (lines 167-171) *)

(** The keyword arguments [task] passes on to the constructor; an absent
    one takes the constructor's default.  (A keyword the constructor
    does not have is a TypeError of the call.) *)
Record TaskInitKwargs := mkKwargs {
  kw_description : option string;
  kw_tags : option (list string);
  kw_max_retries : option Z;
  kw_retry_delay_seconds : option Z
}.

(** What [task] returns: a task, or the function that builds one from the
    callable it is applied to. *)
Inductive Decorated :=
| TaskObject (t : Task)
| Decorator (make : FnArg -> Result Task).

(** [Task(fn=_fn, name=name, **task_init_kwargs)] *)
Definition Task_from `{Hashing} (_fn : FnArg) (name' : option string)
    (task_init_kwargs : TaskInitKwargs) : Result Task :=
  __init__ name' _fn
           (kw_description task_init_kwargs) (kw_tags task_init_kwargs)
           (default 0 (kw_max_retries task_init_kwargs))
           (default 0 (kw_retry_delay_seconds task_init_kwargs)).

Definition task `{Hashing} (_fn : FnArg) (name' : option string)
    (task_init_kwargs : TaskInitKwargs) : Result Decorated :=
  match _fn with
  | FnNone =>
      Ok (Decorator (fun _fn => Task_from _fn name' task_init_kwargs))
  | _ =>
      match Task_from _fn name' task_init_kwargs with
      | Ok t => Ok (TaskObject t)
      | Raise e => Raise e
      | Diverge => Diverge
      end
  end.

(** ** Reading a trace *)

Definition is_proposal (ev : Event) : bool :=
  match ev with ev_set_task_run_state _ _ => true | _ => false end.

Definition is_attempt (ev : Event) : bool :=
  match ev with ev_fn _ _ => true | _ => false end.

Definition is_wait (ev : Event) : bool :=
  match ev with ev_sleep _ => true | _ => false end.

Definition count (p : Event -> bool) (calls : list Event) : nat :=
  length (List.filter p calls).

(** The calls a run of [_run] for [task_run_id] with [args] and [kwargs]
    may make. *)
Definition run_event (task_run_id : UUID) (args : list PyObj)
    (kwargs : list (string * PyObj)) (ev : Event) : Prop :=
  match ev with
  | ev_set_task_run_state id _ => id = task_run_id
  | ev_fn a k => a = args /\ k = kwargs
  | ev_print line => line = "Awaiting scheduled start time..."
  | ev_now => True
  | ev_sleep seconds => 0 <= seconds
  | ev_create_task_run _ _ => False
  | ev_submit _ _ => False
  end.

(** [w'] is [w] with calls added to the trace that all satisfy [P]. *)
Definition adds (P : Event -> Prop) (w w' : World) : Prop :=
  exists calls, trace w' = trace w ++ calls /\ Forall P calls.

(** The dynamic keys of the tasks registered in a trace, in order. *)
Definition registered_keys (calls : list Event) : list Z :=
  omap (fun ev => match ev with
                  | ev_create_task_run t _ => Some (dynamic_key t)
                  | _ => None
                  end) calls.

(** [k; k + 1; ...], [n] of them. *)
Fixpoint keys_from (k : Z) (n : nat) : list Z :=
  match n with
  | O => []
  | S n' => k :: keys_from (k + 1) n'
  end.

(** The tag list the key is computed from (line 67). *)
Definition sorted_tags (tags' : gset string) : list string :=
  sorted (if decide (tags' = ∅) then [] else elements tags').

(** A callable that carries attributes of its own:
    [add_one.name = "plus_one"], [add_one.description = "Plus one."]. *)
Definition labelled : Callable :=
  mkCallable "add_one" "flows" "add_one" (Some "Adds one.")
             (<["name" := "plus_one"]> (<["description" := "Plus one."]> ∅)).

(** The authority cannot be reached once the run is registered. *)
Definition offline : Env :=
  scripted (fun _ => Raises (ConnectionError "connection refused"))
           (Returns (PyInt 42)) 0.

(** The authority accepts RUNNING and answers every terminal proposal
    with a RUNNING state of its own. *)
Definition restarting : Env :=
  scripted
    (fun st =>
       match type st with
       | RUNNING => Returns accept
       | _ => Returns (substitute (new_State RUNNING))
       end)
    (Returns (PyInt 42)) 0.

(** * Properties *)

(** Case analysis on the first reply the goal is waiting for. *)
Ltac case_reply :=
  match goal with
  | |- context [match ?r with Returns _ => _ | Raises _ => _ end] =>
      destruct r
  end.

Section Facts.

Context (env : Env) {schema : StateSchema}.

(** ** The proposal protocol *)

(** What [propose_state] does, by the reply of the authority. *)
Lemma propose_state_reply task_run_id state w :
  propose_state env task_run_id state w =
  match remote_set_task_run_state env w task_run_id state with
  | Raises e => (Raise e, log (ev_set_task_run_state task_run_id state) w)
  | Returns response =>
      (match status response with
       | ACCEPT =>
           Ok (Some (match details_state_details (details response) with
                     | Some d => set_state_details state d
                     | None => state
                     end))
       | ABORT => Raise (RuntimeError "ABORT is not yet handled")
       | OTHER => Ok (details_state (details response))
       end,
       log (ev_set_task_run_state task_run_id state) w)
  end.
Proof.
  unfold propose_state, set_task_run_state, bind, perform.
  destruct (remote_set_task_run_state env w task_run_id state)
    as [[st [ds dd]]|e]; [|reflexivity].
  destruct st, dd; reflexivity.
Qed.

Lemma propose_state_world task_run_id state w r w' :
  propose_state env task_run_id state w = (r, w') ->
  w' = log (ev_set_task_run_state task_run_id state) w.
Proof.
  rewrite propose_state_reply.
  destruct (remote_set_task_run_state env w task_run_id state);
    intros [= <- <-]; reflexivity.
Qed.

(** *** C3: an accepted proposal comes back as the caller built it, with
    the server's details assigned when the response carries some *)

(** C3. When the authority's verdict is ACCEPT, [propose_state] returns
    the proposed state itself if the response carries no state-details,
    and otherwise the proposed state with its [state_details] set to the
    response's, its type, message and payload ([data]) untouched. *)
Theorem propose_state_accept task_run_id state w response :
  remote_set_task_run_state env w task_run_id state = Returns response ->
  status response = ACCEPT ->
  (details_state_details (details response) = None ->
   propose_state env task_run_id state w =
   (Ok (Some state), log (ev_set_task_run_state task_run_id state) w)) /\
  (forall d, details_state_details (details response) = Some d ->
   exists state',
     propose_state env task_run_id state w =
     (Ok (Some state'), log (ev_set_task_run_state task_run_id state) w) /\
     state_details state' = d /\
     data state' = data state /\
     type state' = type state /\
     message state' = message state).
Proof.
  intros Hreply Haccept. rewrite propose_state_reply, Hreply, Haccept.
  split.
  - intros ->. reflexivity.
  - intros d ->. exists (set_state_details state d). repeat split.
Qed.

(** *** C4: any other verdict hands back the server's state *)

(** C4. When the verdict is neither ACCEPT nor ABORT, [propose_state]
    returns the state of the response as it is, whatever was proposed. *)
Theorem propose_state_other task_run_id state w response :
  remote_set_task_run_state env w task_run_id state = Returns response ->
  status response <> ACCEPT ->
  status response <> ABORT ->
  propose_state env task_run_id state w =
  (Ok (details_state (details response)),
   log (ev_set_task_run_state task_run_id state) w).
Proof.
  intros Hreply Hna Hnb. rewrite propose_state_reply, Hreply.
  destruct (status response); congruence.
Qed.

(** *** C5: ABORT is fatal *)

(** C5. When the verdict is ABORT, [propose_state] raises the
    RuntimeError "ABORT is not yet handled" and returns no state. *)
Theorem propose_state_abort task_run_id state w response :
  remote_set_task_run_state env w task_run_id state = Returns response ->
  status response = ABORT ->
  propose_state env task_run_id state w =
  (Raise (RuntimeError "ABORT is not yet handled"),
   log (ev_set_task_run_state task_run_id state) w) /\
  (forall st, fst (propose_state env task_run_id state w) <> Ok st) /\
  isinstance (RuntimeError "ABORT is not yet handled") "RuntimeError" = true.
Proof.
  intros Hreply Habort. rewrite propose_state_reply, Hreply, Habort.
  repeat split. intros st [=].
Qed.

(** ** The loop of [_run] *)

Lemma bind_Ok_inv {A B} (m : M A) (k : A -> M B) w b w' :
  bind m k w = (Ok b, w') ->
  exists a w1, m w = (Ok a, w1) /\ k a w1 = (Ok b, w').
Proof.
  unfold bind. destruct (m w) as [[a|e|] w1]; intros H; try discriminate.
  eauto.
Qed.

Lemma bind_Raise_inv {A B} (m : M A) (k : A -> M B) w e w' :
  bind m k w = (Raise e, w') ->
  m w = (Raise e, w') \/
  exists a w1, m w = (Ok a, w1) /\ k a w1 = (Raise e, w').
Proof.
  unfold bind. destruct (m w) as [[a|e1|] w1]; intros H; try discriminate.
  - right. eauto.
  - left. injection H as -> ->. reflexivity.
Qed.

(** What lines 95-114 produce, by the outcome of the callable. *)
Lemma run_fn_reply task_run_id flow_run_id args kwargs w :
  run_fn env task_run_id flow_run_id args kwargs w =
  match fn_behaviour env (inside task_run_id flow_run_id w)
                     (fn (self w)) args kwargs with
  | Returns v => (Ok (completed_state v), log (ev_fn args kwargs) w)
  | Raises e =>
      (if isinstance e "Exception" then Ok (failed_state e) else Raise e,
       log (ev_fn args kwargs) w)
  end.
Proof.
  unfold run_fn, try_except_else, with_TaskRunContext, bind, get_self,
    call_fn, perform, inside.
  cbn [self flow_run_context task_run_context trace].
  destruct (fn_behaviour env _ _ _ _) as [v|e]; cbn.
  - reflexivity.
  - destruct (isinstance e "Exception"); reflexivity.
Qed.

Lemma run_fn_Ok task_run_id flow_run_id args kwargs w st w' :
  run_fn env task_run_id flow_run_id args kwargs w = (Ok st, w') ->
  terminal st /\ w' = log (ev_fn args kwargs) w.
Proof.
  rewrite run_fn_reply.
  destruct (fn_behaviour env _ _ _ _) as [v|e].
  - intros [= <- <-]. split; [left; eauto | reflexivity].
  - destruct (isinstance e "Exception") eqn:He; intros [= <- <-].
    split; [right; eauto | reflexivity].
Qed.

Lemma run_fn_Raise task_run_id flow_run_id args kwargs w e w' :
  run_fn env task_run_id flow_run_id args kwargs w = (Raise e, w') ->
  fn_behaviour env (inside task_run_id flow_run_id w) (fn (self w)) args kwargs
    = Raises e /\
  isinstance e "Exception" = false.
Proof.
  rewrite run_fn_reply.
  destruct (fn_behaviour env _ _ _ _) as [v|e0]; [discriminate|].
  destruct (isinstance e0 "Exception") eqn:He; intros [= <- <-].
  split; [reflexivity | exact He].
Qed.

(** One pass through the body, when the running-check succeeds. *)
Lemma while_running_unfold fuel task_run_id flow_run_id args kwargs st :
  is_running st = true ->
  while_running env (S fuel) task_run_id flow_run_id args kwargs (Some st) =
  loop_body env
    (while_running env fuel task_run_id flow_run_id args kwargs)
    task_run_id flow_run_id args kwargs.
Proof. intros Hrun. cbn [while_running]. rewrite Hrun. reflexivity. Qed.

(** When the running-check fails the loop is over, whatever the fuel. *)
Lemma while_running_stop fuel task_run_id flow_run_id args kwargs st w :
  is_running st = false ->
  while_running env fuel task_run_id flow_run_id args kwargs (Some st) w
  = (Ok st, w).
Proof. intros Hrun. destruct fuel; cbn; rewrite Hrun; reflexivity. Qed.

(** ** Frame: the loop only adds to the trace, and leaves the task and
    the contexts alone *)

Lemma extends_refl w : extends w w.
Proof. repeat split. exists []. symmetry. apply app_nil_r. Qed.

Lemma extends_trans w1 w2 w3 : extends w1 w2 -> extends w2 w3 -> extends w1 w3.
Proof.
  intros (Hs1 & Hf1 & Ht1 & c1 & Hc1) (Hs2 & Hf2 & Ht2 & c2 & Hc2).
  repeat split; try congruence.
  exists (c1 ++ c2). rewrite Hc2, Hc1, app_assoc. reflexivity.
Qed.

Lemma extends_log ev w : extends w (log ev w).
Proof. repeat split. exists [ev]. reflexivity. Qed.

Lemma extends_log_l ev w w' : extends (log ev w) w' -> extends w w'.
Proof. apply extends_trans, extends_log. Qed.

Lemma propose_state_extends task_run_id state w :
  extends w (snd (propose_state env task_run_id state w)).
Proof.
  destruct (propose_state env task_run_id state w) as [r w'] eqn:H.
  apply propose_state_world in H as ->. apply extends_log.
Qed.

Lemma run_fn_extends task_run_id flow_run_id args kwargs w :
  extends w (snd (run_fn env task_run_id flow_run_id args kwargs w)).
Proof.
  rewrite run_fn_reply.
  destruct (fn_behaviour env _ _ _ _); apply extends_log.
Qed.

Lemma negotiate_extends continue task_run_id tst w :
  (forall state w1, extends w1 (snd (continue state w1))) ->
  extends w (snd (negotiate env continue task_run_id tst w)).
Proof.
  intros Hk. unfold negotiate. unfold bind at 1.
  pose proof (propose_state_extends task_run_id tst w) as H2.
  destruct (propose_state env task_run_id tst w) as [[[st'|]|e|] w2];
    cbn [snd] in *; try exact H2.
  eapply extends_trans; [exact H2|].
  destruct (is_scheduled st'); [|apply Hk].
  unfold bind, print, now, sleep, perform; cbn.
  destruct (scheduled_time (state_details st')) as [t|]; cbn.
  - do 3 eapply extends_log_l.
    match goal with
    | |- context [propose_state env task_run_id Retrying ?w3] =>
        pose proof (propose_state_extends task_run_id Retrying w3) as H3;
        destruct (propose_state env task_run_id Retrying w3)
          as [[state''|e|] w4]; cbn [snd] in *
    end; try exact H3.
    eapply extends_trans; [exact H3|apply Hk].
  - do 2 eapply extends_log_l. apply extends_refl.
Qed.

(** The body starts with the call of the callable, and whatever follows
    only adds to the trace. *)
Lemma loop_body_extends continue task_run_id flow_run_id args kwargs w :
  (forall state w1, extends w1 (snd (continue state w1))) ->
  extends (log (ev_fn args kwargs) w)
    (snd (loop_body env continue task_run_id flow_run_id args kwargs w)).
Proof.
  intros Hk. unfold loop_body, bind. rewrite run_fn_reply.
  destruct (fn_behaviour env _ _ _ _) as [v|e].
  - apply negotiate_extends, Hk.
  - destruct (isinstance e "Exception");
      [apply negotiate_extends, Hk | apply extends_refl].
Qed.

Lemma while_running_extends fuel task_run_id flow_run_id args kwargs :
  forall state w,
    extends w
      (snd (while_running env fuel task_run_id flow_run_id args kwargs state w)).
Proof.
  induction fuel as [|fuel IH]; intros [st|] w; cbn [while_running];
    try apply extends_refl.
  - destruct (is_running st); apply extends_refl.
  - destruct (is_running st); [|apply extends_refl].
    eapply extends_log_l, loop_body_extends, IH.
Qed.

(** The first pass: [_run] comes to the running-check with what came
    back for the RUNNING proposal. *)
Lemma run_first_check fuel task_run_id flow_run_id args kwargs w0 state w :
  propose_state env task_run_id (new_State RUNNING) w0 = (Ok state, w) ->
  _run env fuel task_run_id flow_run_id args kwargs w0
  = while_running env fuel task_run_id flow_run_id args kwargs state w.
Proof. intros Hp. unfold _run, bind. rewrite Hp. reflexivity. Qed.

(** ** C8: the loop is entered only in a running state *)

(** C8. If the state that comes back for the initial RUNNING proposal is
    not running, [_run] returns it at once: the only call made is that
    proposal, so the callable is not invoked.  At every running-check, a
    state that is not running ends the loop without any call, and a
    running one starts the body with the call of the callable. *)
Theorem run_not_running fuel task_run_id flow_run_id args kwargs w st w1 :
  propose_state env task_run_id (new_State RUNNING) w = (Ok (Some st), w1) ->
  is_running st = false ->
  _run env fuel task_run_id flow_run_id args kwargs w = (Ok st, w1) /\
  trace w1 = trace w ++ [ev_set_task_run_state task_run_id (new_State RUNNING)] /\
  (forall fuel' st' w',
     is_running st' = false ->
     while_running env fuel' task_run_id flow_run_id args kwargs (Some st') w'
     = (Ok st', w')) /\
  (forall fuel' st' w',
     is_running st' = true ->
     exists calls,
       trace (snd (while_running env (S fuel') task_run_id flow_run_id
                                 args kwargs (Some st') w'))
       = trace w' ++ ev_fn args kwargs :: calls).
Proof.
  intros Hp Hrun. repeat split.
  - rewrite (run_first_check _ _ _ _ _ _ _ _ Hp).
    apply while_running_stop, Hrun.
  - apply propose_state_world in Hp as ->. reflexivity.
  - intros fuel' st' w' H. apply while_running_stop, H.
  - intros fuel' st' w' H. rewrite (while_running_unfold _ _ _ _ _ _ H).
    destruct (loop_body_extends
                (while_running env fuel' task_run_id flow_run_id args kwargs)
                task_run_id flow_run_id args kwargs w'
                (while_running_extends fuel' task_run_id flow_run_id args kwargs))
      as (_ & _ & _ & calls & Hc).
    exists calls. rewrite Hc. cbn [log trace].
    rewrite <- app_assoc. reflexivity.
Qed.

(** ** The ways out of the loop *)

Lemma propose_state_Raise task_run_id state w e w' :
  propose_state env task_run_id state w = (Raise e, w') ->
  e = RuntimeError "ABORT is not yet handled" \/
  remote_set_task_run_state env w task_run_id state = Raises e.
Proof.
  rewrite propose_state_reply.
  destruct (remote_set_task_run_state env w task_run_id state) as [r|e0].
  - destruct (status r); intros [= <- <-]. left. reflexivity.
  - intros [= <- <-]. right. reflexivity.
Qed.

Lemma propose_state_fatal task_run_id state w e w' :
  propose_state env task_run_id state w = (Raise e, w') -> fatal env e.
Proof.
  intros [->|H]%propose_state_Raise.
  - constructor.
  - eapply fatal_client, H.
Qed.

(** The wait is never negative, and it is the whole seconds left until
    the scheduled time. *)
Lemma wait_bounds (d : Duration) :
  0 <= Z.max (in_seconds d) 0 /\
  Z.max (in_seconds d) 0 * 1000000 <= Z.max 0 d
    < (Z.max (in_seconds d) 0 + 1) * 1000000.
Proof.
  unfold in_seconds.
  destruct (Z.le_gt_cases 0 d) as [Hd|Hd].
  - rewrite Z.quot_div_nonneg by lia.
    pose proof (Z.div_mod d 1000000 ltac:(lia)).
    pose proof (Z.mod_pos_bound d 1000000 ltac:(lia)).
    assert (0 <= d / 1000000) by (apply Z.div_pos; lia).
    lia.
  - assert (Z.quot d 1000000 <= 0).
    { rewrite <- (Z.opp_involutive d), Z.quot_opp_l by lia.
      assert (0 <= Z.quot (- d) 1000000) by (apply Z.quot_pos; lia). lia. }
    lia.
Qed.

(** A SCHEDULED answer that carries its time: wait, propose RETRYING, and
    go back to the running-check with what comes back. *)
Lemma negotiate_scheduled continue task_run_id tst w st w2 t :
  propose_state env task_run_id tst w = (Ok (Some st), w2) ->
  is_scheduled st = true ->
  scheduled_time (state_details st) = Some t ->
  negotiate env continue task_run_id tst w =
  (state <- propose_state env task_run_id Retrying ;; continue state)
    (log (ev_sleep
            (Z.max (in_seconds
                      (t - pendulum_now env
                             (log (ev_print "Awaiting scheduled start time...") w2)))
                   0))
       (log ev_now (log (ev_print "Awaiting scheduled start time...") w2))).
Proof.
  intros Hp Hs Ht. unfold negotiate. unfold bind at 1. rewrite Hp, Hs.
  unfold bind at 1, print at 1, perform at 1.
  unfold bind at 1, now at 1, perform at 1.
  rewrite Ht.
  unfold bind at 1, sleep at 1, perform at 1.
  reflexivity.
Qed.

(** A state that is not SCHEDULED goes straight back to the check. *)
Lemma negotiate_settled continue task_run_id tst w st w2 :
  propose_state env task_run_id tst w = (Ok (Some st), w2) ->
  is_scheduled st = false ->
  negotiate env continue task_run_id tst w = continue (Some st) w2.
Proof.
  intros Hp Hs. unfold negotiate. unfold bind at 1. rewrite Hp, Hs.
  reflexivity.
Qed.

(** How the loop hands a state back: the state fails the running-check,
    and it is the one the loop was entered with, or what came back for a
    terminal proposal (and then it is not SCHEDULED), or what came back
    for a RETRYING proposal. *)
Lemma while_running_Ok fuel task_run_id flow_run_id args kwargs :
  forall state w st w',
    while_running env fuel task_run_id flow_run_id args kwargs state w
    = (Ok st, w') ->
    is_running st = false /\
    ((state = Some st /\ w' = w) \/
     (exists w0 tst,
        terminal tst /\
        propose_state env task_run_id tst w0 = (Ok (Some st), w') /\
        is_scheduled st = false) \/
     (exists w0,
        propose_state env task_run_id Retrying w0 = (Ok (Some st), w'))).
Proof.
  induction fuel as [|fuel IH]; intros [s|] w st w'; cbn [while_running];
    try discriminate.
  - destruct (is_running s) eqn:Hs; [discriminate|].
    intros [= <- <-]. auto.
  - destruct (is_running s) eqn:Hs; [|intros [= <- <-]; auto].
    unfold loop_body.
    intros (tst & w1 & Hfn & Hneg)%bind_Ok_inv.
    apply run_fn_Ok in Hfn as [Hterm ->].
    unfold negotiate in Hneg.
    apply bind_Ok_inv in Hneg as ([st'|] & w2 & Hp & Hrest);
      [|discriminate].
    destruct (is_scheduled st') eqn:Hsch.
    + apply bind_Ok_inv in Hrest as (_ & w3 & _ & Hrest).
      apply bind_Ok_inv in Hrest as (t & w4 & _ & Hrest).
      destruct (scheduled_time (state_details st')); [|discriminate].
      apply bind_Ok_inv in Hrest as (_ & w5 & _ & Hrest).
      apply bind_Ok_inv in Hrest as (state'' & w6 & Hretry & Hrest).
      apply IH in Hrest as [Hst [[-> ->]|[Hexit|Hexit]]]; eauto 8.
    + apply IH in Hrest as [Hst [[[= ->] ->]|[Hexit|Hexit]]]; eauto 8.
Qed.

Lemma while_running_Raise fuel task_run_id flow_run_id args kwargs :
  forall state w e w',
    while_running env fuel task_run_id flow_run_id args kwargs state w
    = (Raise e, w') ->
    fatal env e.
Proof.
  induction fuel as [|fuel IH]; intros [s|] w e w'; cbn [while_running];
    try discriminate;
    try (intros [= <- <-]; apply (fatal_no_state env "is_running")).
  - destruct (is_running s); discriminate.
  - destruct (is_running s); [|discriminate].
    unfold loop_body.
    intros [Hfn|(tst & w1 & _ & Hneg)]%bind_Raise_inv.
    { apply run_fn_Raise in Hfn as [Hfn He]. eapply fatal_callable; eauto. }
    unfold negotiate in Hneg.
    apply bind_Raise_inv in Hneg as [Hp|([st'|] & w2 & _ & Hrest)].
    { eapply propose_state_fatal, Hp. }
    2:{ injection Hrest as <- <-. apply (fatal_no_state env "is_scheduled"). }
    destruct (is_scheduled st'); [|eapply IH, Hrest].
    apply bind_Raise_inv in Hrest as [Hpr|(_ & w3 & _ & Hrest)].
    { unfold print, perform in Hpr. discriminate. }
    apply bind_Raise_inv in Hrest as [Hnow|(t & w4 & _ & Hrest)].
    { unfold now, perform in Hnow. discriminate. }
    destruct (scheduled_time (state_details st')).
    2:{ injection Hrest as <- <-. constructor. }
    apply bind_Raise_inv in Hrest as [Hsl|(_ & w5 & _ & Hrest)].
    { unfold sleep, perform in Hsl. discriminate. }
    apply bind_Raise_inv in Hrest as [Hp|(state'' & w6 & _ & Hrest)].
    { eapply propose_state_fatal, Hp. }
    eapply IH, Hrest.
Qed.

(** *** C1, as the loop has it *)

(** C1 (amended). (1) When the state that comes back for a terminal
    proposal is SCHEDULED and carries its time, the loop blocks for the
    whole seconds left until then, never a negative number, then proposes
    the RETRYING state and goes back to the running-check with what comes
    back for it.  (2) [_run] returns a state only when that state fails
    the running-check: it is what came back for the initial RUNNING
    proposal, or for a terminal proposal and then it is not SCHEDULED, or
    for a RETRYING proposal.  (3) Every exception out of [_run] is one of
    the fatal ones: the ABORT error of [propose_state], a failure of the
    client's call, an exception of the callable that is not an instance
    of [Exception], or an operation on a missing state or scheduled
    time. *)
Theorem run_loop_exits task_run_id flow_run_id args kwargs :
  (forall fuel st w tst w1 st' w2 t,
     is_running st = true ->
     run_fn env task_run_id flow_run_id args kwargs w = (Ok tst, w1) ->
     propose_state env task_run_id tst w1 = (Ok (Some st'), w2) ->
     is_scheduled st' = true ->
     scheduled_time (state_details st') = Some t ->
     let printed := log (ev_print "Awaiting scheduled start time...") w2 in
     let wait := Z.max (in_seconds (t - pendulum_now env printed)) 0 in
     0 <= wait /\
     wait * 1000000 <= Z.max 0 (t - pendulum_now env printed)
       < (wait + 1) * 1000000 /\
     while_running env (S fuel) task_run_id flow_run_id args kwargs (Some st) w
     = (state <- propose_state env task_run_id Retrying ;;
        while_running env fuel task_run_id flow_run_id args kwargs state)
         (log (ev_sleep wait) (log ev_now printed))) /\
  (forall fuel w st w',
     _run env fuel task_run_id flow_run_id args kwargs w = (Ok st, w') ->
     is_running st = false /\
     (propose_state env task_run_id (new_State RUNNING) w = (Ok (Some st), w') \/
      (exists w0 tst,
         terminal tst /\
         propose_state env task_run_id tst w0 = (Ok (Some st), w') /\
         is_scheduled st = false) \/
      (exists w0,
         propose_state env task_run_id Retrying w0 = (Ok (Some st), w')))) /\
  (forall fuel w e w',
     _run env fuel task_run_id flow_run_id args kwargs w = (Raise e, w') ->
     fatal env e).
Proof.
  split; [|split].
  - intros fuel st w tst w1 st' w2 t Hrun Hfn Hp Hsched Htime printed wait.
    split; [apply wait_bounds|]. split; [apply wait_bounds|].
    rewrite (while_running_unfold _ _ _ _ _ _ Hrun). unfold loop_body.
    unfold bind at 1. rewrite Hfn.
    apply (negotiate_scheduled _ _ _ _ _ _ _ Hp Hsched Htime).
  - intros fuel w st w' Hret. unfold _run in Hret.
    apply bind_Ok_inv in Hret as (state & w1 & Hp & Hloop).
    apply while_running_Ok in Hloop as [Hstop [[-> ->]|[Hexit|Hexit]]]; auto.
  - intros fuel w e w' Hexc. unfold _run in Hexc.
    apply bind_Raise_inv in Hexc as [Hp|(state & w1 & _ & Hloop)].
    + eapply propose_state_fatal, Hp.
    + eapply while_running_Raise, Hloop.
Qed.

(** ** C2: the outcome of the callable becomes the terminal proposal *)

Context {terminal_schema : TerminalSchema schema}.

(** An accepted terminal proposal ends the loop with the proposed state,
    the server's details assigned to it when the response carries some. *)
Lemma negotiate_accepted fuel task_run_id flow_run_id args kwargs tst w response :
  type tst = COMPLETED \/ type tst = FAILED ->
  remote_set_task_run_state env w task_run_id tst = Returns response ->
  status response = ACCEPT ->
  negotiate env (while_running env fuel task_run_id flow_run_id args kwargs)
            task_run_id tst w
  = (Ok (match details_state_details (details response) with
         | Some d => set_state_details tst d
         | None => tst
         end),
     log (ev_set_task_run_state task_run_id tst) w).
Proof.
  intros Htype Hreply Haccept.
  set (final := match details_state_details (details response) with
                | Some d => set_state_details tst d
                | None => tst
                end).
  assert (Hfinal : type final = COMPLETED \/ type final = FAILED).
  { subst final. destruct (details_state_details (details response));
      exact Htype. }
  assert (Hp : propose_state env task_run_id tst w
               = (Ok (Some final), log (ev_set_task_run_state task_run_id tst) w)).
  { rewrite propose_state_reply, Hreply, Haccept. reflexivity. }
  rewrite (negotiate_settled _ _ _ _ _ _ Hp)
    by (apply terminal_not_scheduled, Hfinal).
  apply while_running_stop, terminal_not_running, Hfinal.
Qed.

(** C2 (amended). Take a run that comes to the running-check in a
    running state.  If the callable then raises an exception that is an
    instance of [Exception], the exception does not leave the loop: the
    proposal that follows is the FAILED state with the exception as
    payload and the fixed message.  If the callable returns a value, the
    proposal is the COMPLETED state with that value as payload and the
    fixed message.  In both cases, when the authority accepts the
    proposal, [_run] returns that state, with that payload. *)
Theorem run_reports_outcome n fuel task_run_id flow_run_id args kwargs w0 st w :
  _run env n task_run_id flow_run_id args kwargs w0
  = while_running env (S fuel) task_run_id flow_run_id args kwargs (Some st) w ->
  is_running st = true ->
  let called := log (ev_fn args kwargs) w in
  let outcome :=
    fn_behaviour env (inside task_run_id flow_run_id w) (fn (self w))
                 args kwargs in
  let back := while_running env fuel task_run_id flow_run_id args kwargs in
  (forall e,
     outcome = Raises e ->
     isinstance e "Exception" = true ->
     run_fn env task_run_id flow_run_id args kwargs w
     = (Ok (mkState FAILED (Some "Task run encountered an exception.")
                    (PyExc e) (mkStateDetails None)), called) /\
     _run env n task_run_id flow_run_id args kwargs w0
     = negotiate env back task_run_id (failed_state e) called /\
     forall response,
       remote_set_task_run_state env called task_run_id (failed_state e)
       = Returns response ->
       status response = ACCEPT ->
       exists final,
         _run env n task_run_id flow_run_id args kwargs w0
         = (Ok final,
            log (ev_set_task_run_state task_run_id (failed_state e)) called) /\
         type final = FAILED /\
         data final = PyExc e /\
         message final = Some "Task run encountered an exception." /\
         (details_state_details (details response) = None ->
          final = failed_state e)) /\
  (forall v,
     outcome = Returns v ->
     run_fn env task_run_id flow_run_id args kwargs w
     = (Ok (mkState COMPLETED (Some "Task run completed.") v
                    (mkStateDetails None)), called) /\
     _run env n task_run_id flow_run_id args kwargs w0
     = negotiate env back task_run_id (completed_state v) called /\
     forall response,
       remote_set_task_run_state env called task_run_id (completed_state v)
       = Returns response ->
       status response = ACCEPT ->
       exists final,
         _run env n task_run_id flow_run_id args kwargs w0
         = (Ok final,
            log (ev_set_task_run_state task_run_id (completed_state v)) called) /\
         type final = COMPLETED /\
         data final = v /\
         message final = Some "Task run completed." /\
         (details_state_details (details response) = None ->
          final = completed_state v)).
Proof.
  intros Hcheck Hrun called outcome back.
  assert (Hstep : forall tst,
    run_fn env task_run_id flow_run_id args kwargs w = (Ok tst, called) ->
    _run env n task_run_id flow_run_id args kwargs w0
    = negotiate env back task_run_id tst called).
  { intros tst Hfn. rewrite Hcheck.
    rewrite (while_running_unfold _ _ _ _ _ _ Hrun).
    unfold loop_body, bind. rewrite Hfn. reflexivity. }
  split.
  - intros e Hout Hexc.
    assert (Hfn : run_fn env task_run_id flow_run_id args kwargs w
                  = (Ok (failed_state e), called)).
    { rewrite run_fn_reply. fold outcome. rewrite Hout, Hexc. reflexivity. }
    split; [exact Hfn|]. split; [apply Hstep, Hfn|].
    intros response Hreply Haccept.
    eexists. split.
    + rewrite (Hstep _ Hfn). subst back.
      apply negotiate_accepted; [right; reflexivity | exact Hreply | exact Haccept].
    + destruct (details_state_details (details response)); repeat split.
      discriminate.
  - intros v Hout.
    assert (Hfn : run_fn env task_run_id flow_run_id args kwargs w
                  = (Ok (completed_state v), called)).
    { rewrite run_fn_reply. fold outcome. rewrite Hout. reflexivity. }
    split; [exact Hfn|]. split; [apply Hstep, Hfn|].
    intros response Hreply Haccept.
    eexists. split.
    + rewrite (Hstep _ Hfn). subst back.
      apply negotiate_accepted; [left; reflexivity | exact Hreply | exact Haccept].
    + destruct (details_state_details (details response)); repeat split.
      discriminate.
Qed.

(** ** The call surface *)

(** What [__call__] does, by the contexts and the replies. *)
Lemma call_reply args kwargs w :
  __call__ env args kwargs w =
  match flow_run_context w with
  | None => (Raise (RuntimeError outside_flow_message), w)
  | Some flow_ctx =>
      match task_run_context w with
      | Some _ => (Raise (RuntimeError within_task_message), w)
      | None =>
          let w1 := log (ev_create_task_run (self w) (flow_run_id flow_ctx)) w in
          match remote_create_task_run env w (self w) (flow_run_id flow_ctx) with
          | Raises e => (Raise e, w1)
          | Returns task_run_id =>
              let w2 :=
                log (ev_set_task_run_state task_run_id (new_State PENDING)) w1 in
              match remote_set_task_run_state env w1 task_run_id
                                              (new_State PENDING) with
              | Raises e => (Raise e, w2)
              | Returns _ =>
                  let job :=
                    mkSubmission task_run_id (flow_run_id flow_ctx) args kwargs in
                  let w3 := log (ev_submit task_run_id job) w2 in
                  match executor_submit env w2 task_run_id job with
                  | Raises e => (Raise e, w3)
                  | Returns future =>
                      (Ok future,
                       mkWorld
                         (with_dynamic_key (self w) (dynamic_key (self w) + 1))
                         (flow_run_context w) (task_run_context w) (trace w3))
                  end
              end
          end
      end
  end.
Proof.
  unfold __call__, bind, FlowRunContext_get, TaskRunContext_get, get_self,
    create_task_run, set_task_run_state, submit, perform, set_dynamic_key, ret.
  destruct (flow_run_context w) as [flow_ctx|] eqn:Hf; [|reflexivity].
  destruct (task_run_context w) as [task_ctx|] eqn:Ht; [reflexivity|].
  destruct (remote_create_task_run env w _ _) as [task_run_id|e];
    [|reflexivity].
  destruct (remote_set_task_run_state env _ _ _) as [r|e]; [|reflexivity].
  destruct (executor_submit env _ _ _) as [future|e]; [|reflexivity].
  cbn. rewrite Hf, Ht. reflexivity.
Qed.

Lemma call_Ok args kwargs w future w' :
  __call__ env args kwargs w = (Ok future, w') ->
  self w' = with_dynamic_key (self w) (dynamic_key (self w) + 1) /\
  flow_run_context w' = flow_run_context w /\
  task_run_context w' = task_run_context w.
Proof.
  rewrite call_reply.
  destruct (flow_run_context w) eqn:Hf; [|discriminate].
  destruct (task_run_context w) eqn:Ht; [discriminate|].
  cbv zeta. repeat (case_reply; [|discriminate]).
  intros [= <- <-]. auto.
Qed.

Lemma call_not_Ok args kwargs w r w' :
  __call__ env args kwargs w = (r, w') ->
  (forall future, r <> Ok future) ->
  self w' = self w /\
  flow_run_context w' = flow_run_context w /\
  task_run_context w' = task_run_context w.
Proof.
  rewrite call_reply.
  destruct (flow_run_context w) eqn:Hf; [|intros [= <- <-]; auto].
  destruct (task_run_context w) eqn:Ht; [intros [= <- <-]; auto|].
  cbv zeta. repeat (case_reply; [|intros [= <- <-]; auto]).
  intros [= <- <-] H. destruct (H _ eq_refl).
Qed.

(** *** C7, as the checks are ordered *)

(** C7 (amended). With no flow-run context, a call raises the usage error
    "Tasks cannot be called outside of a flow." and nothing else happens:
    the world is as before, so no run is registered.  With a flow-run
    context and inside a task-run context, a call raises the usage error
    "Tasks cannot be called from within tasks...", a different message,
    and again nothing else happens. *)
Theorem call_usage_errors args kwargs w :
  (flow_run_context w = None ->
   __call__ env args kwargs w = (Raise (RuntimeError outside_flow_message), w)) /\
  (forall flow_ctx task_ctx,
     flow_run_context w = Some flow_ctx ->
     task_run_context w = Some task_ctx ->
     __call__ env args kwargs w
     = (Raise (RuntimeError within_task_message), w)) /\
  RuntimeError within_task_message <> RuntimeError outside_flow_message /\
  (forall e w',
     flow_run_context w = None \/ is_Some (task_run_context w) ->
     __call__ env args kwargs w = (Raise e, w') ->
     forall task flow_run, ev_create_task_run task flow_run ∈ trace w' ->
                           ev_create_task_run task flow_run ∈ trace w).
Proof.
  rewrite call_reply. repeat split.
  - intros ->. reflexivity.
  - intros flow_ctx task_ctx -> ->. reflexivity.
  - discriminate.
  - intros e w' Hctx.
    destruct (flow_run_context w); [|intros [= <- <-]; auto].
    destruct (task_run_context w); [intros [= <- <-]; auto|].
    destruct Hctx as [[=]|[? [=]]].
Qed.

(** *** C10: a call that raises leaves the task as it was *)

(** C10. A call that raises a usage error (no flow-run context, or inside
    a task-run context) leaves the world, and so the task and its
    dynamic key, exactly as they were; and whatever exception a call
    raises, the task is unchanged after it. *)
Theorem call_error_keeps_task args kwargs w :
  (flow_run_context w = None \/ is_Some (task_run_context w) ->
   exists msg,
     __call__ env args kwargs w = (Raise (RuntimeError msg), w) /\
     (msg = outside_flow_message \/ msg = within_task_message)) /\
  (forall e w',
     __call__ env args kwargs w = (Raise e, w') ->
     self w' = self w /\ dynamic_key (self w') = dynamic_key (self w)).
Proof.
  split.
  - rewrite call_reply. intros Hctx.
    destruct (flow_run_context w);
      [|exists outside_flow_message; auto].
    destruct (task_run_context w);
      [exists within_task_message; auto|].
    destruct Hctx as [[=]|[? [=]]].
  - intros e w' H. apply call_not_Ok in H as (-> & _); [auto|discriminate].
Qed.

(** *** C9: a call that succeeds counts itself, and nothing else *)

Lemma call_each_counts calls :
  forall w n w',
    call_each env calls w = (n, w') ->
    self w' = with_dynamic_key (self w) (dynamic_key (self w) + Z.of_nat n).
Proof.
  induction calls as [|[args kwargs] calls IH]; intros w n w'; cbn [call_each].
  - intros [= <- <-]. change (Z.of_nat 0) with 0. rewrite Z.add_0_r.
    destruct (self w). reflexivity.
  - destruct (__call__ env args kwargs w) as [r w1] eqn:Hcall.
    destruct r as [future|e|].
    + destruct (call_each env calls w1) as [m w2] eqn:Hrest.
      intros [= <- <-]. apply IH in Hrest as ->.
      apply call_Ok in Hcall as (-> & _). unfold with_dynamic_key.
      cbn [name description fn tags task_key dynamic_key max_retries
           retry_delay_seconds].
      f_equal. rewrite Nat2Z.inj_succ. lia.
    + intros Hrest. apply IH in Hrest as ->.
      apply call_not_Ok in Hcall as (-> & _); [reflexivity|discriminate].
    + intros Hrest. apply IH in Hrest as ->.
      apply call_not_Ok in Hcall as (-> & _); [reflexivity|discriminate].
Qed.

Context {hashing : Hashing}.

(** C9. A task is built with dynamic key 0.  A call that returns a future
    leaves a task that differs from the one before in its dynamic key
    only, which is one more; and after any sequence of calls of which N
    returned a future, the dynamic key has grown by N while name,
    callable, description, tags, task key, max_retries and
    retry_delay_seconds are what they were. *)
Theorem call_increments_dynamic_key :
  (forall name' fn' description' tags' max_retries' retry_delay_seconds' t,
     __init__ name' fn' description' tags' max_retries' retry_delay_seconds'
     = Ok t ->
     dynamic_key t = 0) /\
  (forall args kwargs w future w',
     __call__ env args kwargs w = (Ok future, w') ->
     self w'
     = mkTask (name (self w)) (description (self w)) (fn (self w))
              (tags (self w)) (task_key (self w)) (dynamic_key (self w) + 1)
              (max_retries (self w)) (retry_delay_seconds (self w))) /\
  (forall calls w n w',
     call_each env calls w = (n, w') ->
     dynamic_key (self w') = dynamic_key (self w) + Z.of_nat n /\
     name (self w') = name (self w) /\
     fn (self w') = fn (self w) /\
     description (self w') = description (self w) /\
     tags (self w') = tags (self w) /\
     task_key (self w') = task_key (self w) /\
     max_retries (self w') = max_retries (self w) /\
     retry_delay_seconds (self w') = retry_delay_seconds (self w)).
Proof.
  split; [|split].
  - intros name' fn' description' tags' mr rd t. unfold __init__.
    destruct fn' as [|[]|f]; try discriminate. intros [= <-]. reflexivity.
  - intros args kwargs w future w' Hcall. apply call_Ok in Hcall as (-> & _).
    reflexivity.
  - intros calls w n w' Hcalls. apply call_each_counts in Hcalls as ->.
    repeat split.
Qed.

(** ** C6: the task key *)

(** Sorting forgets the order in which a set hands out its elements. *)
Lemma sorted_Permutation l1 l2 : l1 ≡ₚ l2 -> sorted l1 = sorted l2.
Proof.
  intros Hperm. unfold sorted.
  apply (Sorted_unique String.le).
  - apply Sorted_merge_sort, _.
  - apply Sorted_merge_sort, _.
  - rewrite !merge_sort_Permutation. exact Hperm.
Qed.

Lemma sorted_elements (s : gset string) l :
  l ≡ₚ elements s ->
  sorted (if decide (s = ∅) then [] else elements s) = sorted l.
Proof.
  intros Hperm. destruct (decide (s = ∅)) as [->|_].
  - rewrite elements_empty in Hperm. apply Permutation_nil_r in Hperm as ->.
    reflexivity.
  - symmetry. apply sorted_Permutation, Hperm.
Qed.

Lemma call_keeps_task_key args kwargs w :
  task_key (self (snd (__call__ env args kwargs w))) = task_key (self w).
Proof.
  destruct (__call__ env args kwargs w) as [[future|e|] w'] eqn:Hcall;
    cbn [snd].
  - apply call_Ok in Hcall as (-> & _). reflexivity.
  - apply call_not_Ok in Hcall as (-> & _); [reflexivity|discriminate].
  - apply call_not_Ok in Hcall as (-> & _); [reflexivity|discriminate].
Qed.

(** C6. Two tasks built with the same name, the same callable and tag
    collections with the same members, in whatever order and however
    often repeated, have the same task key, whatever their descriptions
    and retry settings.  The key is the hash of the task's name, the
    qualified name of the callable and the sorted tags, in whatever order
    the tag set is enumerated; and no call, whatever its arguments,
    changes it. *)
Theorem task_key_stable name' f description1 description2 tags1 tags2
    retries1 retries2 delay1 delay2 :
  (forall tag, tag ∈ default [] tags1 <-> tag ∈ default [] tags2) ->
  exists t1 t2,
    __init__ name' (FnCallable f) description1 tags1 retries1 delay1 = Ok t1 /\
    __init__ name' (FnCallable f) description2 tags2 retries2 delay2 = Ok t2 /\
    task_key t1 = task_key t2 /\
    (forall l,
       l ≡ₚ elements (tags t1) ->
       task_key t1
       = stable_hash [name t1; to_qualified_name f; str (sorted l)]) /\
    (forall args kwargs w,
       task_key (self (snd (__call__ env args kwargs w))) = task_key (self w)).
Proof.
  intros Hsame. unfold __init__. do 2 eexists.
  split; [reflexivity|]. split; [reflexivity|].
  cbn [task_key name tags].
  assert (Hdef : forall tags' : option (list string),
            match tags' with Some (t :: l) => t :: l | _ => [] end
            = default [] tags').
  { intros [[|t l]|]; reflexivity. }
  rewrite !Hdef.
  assert (Hset : (list_to_set (default [] tags1) : gset string)
                 = list_to_set (default [] tags2)).
  { apply set_eq. intros tag. rewrite !elem_of_list_to_set. apply Hsame. }
  repeat split.
  - rewrite Hset. reflexivity.
  - intros l Hl. unfold derive_task_key.
    rewrite (sorted_elements _ l Hl). reflexivity.
  - apply call_keeps_task_key.
Qed.

End Facts.

(** ** The properties on the example worlds *)

Global Instance spec_schema_terminal : TerminalSchema spec_schema.
Proof.
  split; intros [[] m d sd] [H|H]; cbn in H; try discriminate; reflexivity.
Qed.

(** An accepted COMPLETED proposal, without and with server details. *)
Lemma propose_state_accept_witness :
  propose_state accepting "task-run-1" (completed_state (PyInt 42)) in_flow
  = (Ok (Some (completed_state (PyInt 42))),
     log (ev_set_task_run_state "task-run-1" (completed_state (PyInt 42)))
         in_flow) /\
  exists state',
    propose_state detailing "task-run-1" (completed_state (PyInt 42)) in_flow
    = (Ok (Some state'),
       log (ev_set_task_run_state "task-run-1" (completed_state (PyInt 42)))
           in_flow) /\
    state_details state' = mkStateDetails (Some 5000000) /\
    data state' = data (completed_state (PyInt 42)) /\
    type state' = type (completed_state (PyInt 42)) /\
    message state' = message (completed_state (PyInt 42)).
Proof.
  split.
  - apply (propose_state_accept accepting "task-run-1"
             (completed_state (PyInt 42)) in_flow accept); reflexivity.
  - apply (propose_state_accept detailing "task-run-1"
             (completed_state (PyInt 42)) in_flow
             (accept_with (mkStateDetails (Some 5000000)))); reflexivity.
Defined.

(** The RUNNING proposal answered with a PENDING state. *)
Lemma propose_state_other_witness :
  propose_state refusing "task-run-1" (new_State RUNNING) in_flow
  = (Ok (Some (new_State PENDING)),
     log (ev_set_task_run_state "task-run-1" (new_State RUNNING)) in_flow).
Proof.
  apply (propose_state_other refusing "task-run-1" (new_State RUNNING) in_flow
           (substitute (new_State PENDING))); [reflexivity|discriminate..].
Defined.

(** The RUNNING proposal aborted. *)
Lemma propose_state_abort_witness :
  propose_state aborting "task-run-1" (new_State RUNNING) in_flow
  = (Raise (RuntimeError "ABORT is not yet handled"),
     log (ev_set_task_run_state "task-run-1" (new_State RUNNING)) in_flow) /\
  (forall st,
     fst (propose_state aborting "task-run-1" (new_State RUNNING) in_flow)
     <> Ok st) /\
  isinstance (RuntimeError "ABORT is not yet handled") "RuntimeError" = true.
Proof.
  apply (propose_state_abort aborting "task-run-1" (new_State RUNNING) in_flow
           abort); reflexivity.
Defined.

(** A run the authority does not let start: one proposal, no call of the
    callable, even without fuel. *)
Lemma run_not_running_witness :
  _run (schema := spec_schema) refusing 0 "task-run-1" "flow-run-1"
       [PyInt 41] [] in_flow
  = (Ok (new_State PENDING),
     log (ev_set_task_run_state "task-run-1" (new_State RUNNING)) in_flow).
Proof.
  apply (run_not_running (schema := spec_schema) refusing 0 "task-run-1"
           "flow-run-1" [PyInt 41] [] in_flow (new_State PENDING)
           (log (ev_set_task_run_state "task-run-1" (new_State RUNNING))
                in_flow));
    reflexivity.
Defined.

(** The rescheduled run: the wait of its first pass, and the state it
    ends with. *)
Lemma run_loop_exits_witness :
  (let printed :=
     log (ev_print "Awaiting scheduled start time...")
         (proposed (completed_state (PyInt 42))) in
   let wait :=
     Z.max (in_seconds (1500000 - pendulum_now rescheduling printed)) 0 in
   0 <= wait /\
   wait * 1000000 <= Z.max 0 (1500000 - pendulum_now rescheduling printed)
     < (wait + 1) * 1000000 /\
   while_running (schema := spec_schema) rescheduling 2 "task-run-1"
                 "flow-run-1" [PyInt 41] [] (Some (new_State RUNNING)) started
   = (state <- propose_state rescheduling "task-run-1"
                             (Retrying (StateSchema := spec_schema)) ;;
      while_running (schema := spec_schema) rescheduling 1 "task-run-1"
                    "flow-run-1" [PyInt 41] [] state)
       (log (ev_sleep wait) (log ev_now printed))) /\
  is_running (StateSchema := spec_schema) (scheduled_at 9000000) = false.
Proof.
  destruct (run_loop_exits (schema := spec_schema) rescheduling "task-run-1"
              "flow-run-1" [PyInt 41] []) as (Hwait & Hret & _).
  split.
  - apply (Hwait 1%nat (new_State RUNNING) started (completed_state (PyInt 42))
             called (scheduled_at 1500000)
             (proposed (completed_state (PyInt 42))) 1500000);
      reflexivity.
  - apply (Hret 3%nat in_flow (scheduled_at 9000000)
             (snd (_run (schema := spec_schema) rescheduling 3 "task-run-1"
                        "flow-run-1" [PyInt 41] [] in_flow))).
    vm_compute. reflexivity.
Defined.

(** Scenarios A and B of the spec, and the second attempt of a run that
    was rescheduled once. *)
Lemma run_reports_outcome_witness :
  (exists final,
     _run (schema := spec_schema) accepting 1 "task-run-1" "flow-run-1"
          [PyInt 41] [] in_flow
     = (Ok final, proposed (completed_state (PyInt 42))) /\
     type final = COMPLETED /\
     data final = PyInt 42 /\
     message final = Some "Task run completed." /\
     (details_state_details (details accept) = None ->
      final = completed_state (PyInt 42))) /\
  (exists final,
     _run (schema := spec_schema) accepting_failure 1 "task-run-1" "flow-run-1"
          [PyInt 41] [] in_flow
     = (Ok final, proposed (failed_state (ValueError "bad input"))) /\
     type final = FAILED /\
     data final = PyExc (ValueError "bad input") /\
     message final = Some "Task run encountered an exception." /\
     (details_state_details (details accept) = None ->
      final = failed_state (ValueError "bad input"))) /\
  (exists final,
     _run (schema := spec_schema) retrying_once 2 "task-run-1" "flow-run-1"
          [PyInt 41] [] in_flow
     = (Ok final,
        log (ev_set_task_run_state "task-run-1" (completed_state (PyInt 42)))
            (log (ev_fn [PyInt 41] []) retried)) /\
     type final = COMPLETED /\
     data final = PyInt 42 /\
     message final = Some "Task run completed." /\
     (details_state_details (details accept) = None ->
      final = completed_state (PyInt 42))).
Proof.
  repeat split.
  - destruct (run_reports_outcome (schema := spec_schema) accepting 1 0
                "task-run-1" "flow-run-1" [PyInt 41] [] in_flow
                (new_State RUNNING) started eq_refl eq_refl) as [_ Hret].
    destruct (Hret (PyInt 42) eq_refl) as (_ & _ & Haccept).
    exact (Haccept accept eq_refl eq_refl).
  - destruct (run_reports_outcome (schema := spec_schema) accepting_failure 1 0
                "task-run-1" "flow-run-1" [PyInt 41] [] in_flow
                (new_State RUNNING) started eq_refl eq_refl) as [Hexc _].
    destruct (Hexc (ValueError "bad input") eq_refl eq_refl)
      as (_ & _ & Haccept).
    exact (Haccept accept eq_refl eq_refl).
  - destruct (run_reports_outcome (schema := spec_schema) retrying_once 2 0
                "task-run-1" "flow-run-1" [PyInt 41] [] in_flow
                (new_State RETRYING) retried eq_refl eq_refl) as [_ Hret].
    destruct (Hret (PyInt 42) eq_refl) as (_ & _ & Haccept).
    exact (Haccept accept eq_refl eq_refl).
Defined.

(** A call outside any flow, and a call from a task of a flow. *)
Lemma call_usage_errors_witness :
  __call__ accepting [PyInt 1] [] outside_flow
  = (Raise (RuntimeError outside_flow_message), outside_flow) /\
  __call__ accepting [PyInt 1] [] in_task_in_flow
  = (Raise (RuntimeError within_task_message), in_task_in_flow).
Proof.
  split.
  - apply (call_usage_errors accepting [PyInt 1] [] outside_flow).
    reflexivity.
  - apply (proj1 (proj2 (call_usage_errors accepting [PyInt 1] []
                           in_task_in_flow))
             (mkFlowRunContext "flow-run-1")
             (mkTaskRunContext "task-run-0" "flow-run-1"));
      reflexivity.
Defined.

(** The same two calls leave the example task as it was. *)
Lemma call_error_keeps_task_witness :
  (exists msg,
     __call__ accepting [PyInt 1] [] in_task_in_flow
     = (Raise (RuntimeError msg), in_task_in_flow) /\
     (msg = outside_flow_message \/ msg = within_task_message)) /\
  self (snd (__call__ accepting [PyInt 1] [] outside_flow)) = self outside_flow.
Proof.
  split.
  - apply (call_error_keeps_task accepting [PyInt 1] [] in_task_in_flow).
    right. eexists. reflexivity.
  - apply (proj2 (call_error_keeps_task accepting [PyInt 1] [] outside_flow)
             (RuntimeError outside_flow_message)).
    reflexivity.
Defined.

(** Three calls in a flow: the dynamic key goes from 0 to 3. *)
Lemma call_increments_dynamic_key_witness :
  dynamic_key example_task = 0 /\
  dynamic_key (self (snd (call_each accepting three_calls in_flow)))
  = dynamic_key (self in_flow) + Z.of_nat 3.
Proof.
  destruct (call_increments_dynamic_key accepting (hashing := example_hashing))
    as (Hinit & _ & Hcalls).
  split.
  - apply (Hinit None (FnCallable add_one) None (Some ["b"; "a"]) 3 10).
    reflexivity.
  - apply (Hcalls three_calls in_flow 3%nat
             (snd (call_each accepting three_calls in_flow))).
    vm_compute. reflexivity.
Defined.

#[local] Existing Instance example_hashing.

(** The same task declared twice, with its tags in another order and
    one of them repeated. *)
Lemma task_key_stable_witness :
  exists t1 t2,
    __init__ (H := example_hashing) None (FnCallable add_one) None
             (Some ["b"; "a"]) 3 10 = Ok t1 /\
    __init__ (H := example_hashing) None (FnCallable add_one)
             (Some "Another description.") (Some ["a"; "b"; "a"]) 0 0 = Ok t2 /\
    task_key t1 = task_key t2 /\
    (forall l,
       l ≡ₚ elements (tags t1) ->
       task_key t1
       = stable_hash [name t1; to_qualified_name add_one; str (sorted l)]) /\
    (forall args kwargs w,
       task_key (self (snd (__call__ accepting args kwargs w)))
       = task_key (self w)).
Proof.
  apply (task_key_stable accepting (hashing := example_hashing) None add_one
           None (Some "Another description.") (Some ["b"; "a"])
           (Some ["a"; "b"; "a"]) 3 0 10 0).
  intros tag. cbn. rewrite !elem_of_cons. tauto.
Defined.

(** ** Where the loop and the call surface differ from a simpler story *)

(** C1, at the authority that answers the RETRYING proposal with a new
    schedule.  The retry was due 1.5 seconds after the clock's reading and
    the loop slept 1 second; the RETRYING proposal came back as a
    SCHEDULED state, which is not running, and [_run] returned it: an
    exit after a RETRYING proposal, with a SCHEDULED state.  And at the
    authority that cannot be reached for the terminal proposal, the run
    ends with the client's exception, which is not the ABORT error. *)
Lemma run_exit_after_retrying :
  _run (schema := spec_schema) rescheduling 3 "task-run-1" "flow-run-1"
       [PyInt 41] [] in_flow
  = (Ok (scheduled_at 9000000),
     mkWorld example_task (Some (mkFlowRunContext "flow-run-1")) None
       [ ev_set_task_run_state "task-run-1" (new_State RUNNING);
         ev_fn [PyInt 41] [];
         ev_set_task_run_state "task-run-1" (completed_state (PyInt 42));
         ev_print "Awaiting scheduled start time...";
         ev_now;
         ev_sleep 1;
         ev_set_task_run_state "task-run-1" (new_State RETRYING) ]) /\
  is_scheduled (StateSchema := spec_schema) (scheduled_at 9000000) = true /\
  1 * 1000000
  < Z.max 0 (1500000
             - pendulum_now rescheduling
                 (log (ev_print "Awaiting scheduled start time...")
                      (proposed (completed_state (PyInt 42))))) /\
  _run (schema := spec_schema) unreachable 3 "task-run-1" "flow-run-1"
       [PyInt 41] [] in_flow
  = (Raise (ConnectionError "connection refused"),
     proposed (completed_state (PyInt 42))) /\
  ~ (forall (env : Env) (schema : StateSchema) fuel task_run_id flow_run_id
            args kwargs w st w',
       _run env fuel task_run_id flow_run_id args kwargs w = (Ok st, w') ->
       exists w0 tst,
         terminal tst /\
         propose_state env task_run_id tst w0 = (Ok (Some st), w') /\
         is_scheduled st = false).
Proof.
  assert (Hrun :
    _run (schema := spec_schema) rescheduling 3 "task-run-1" "flow-run-1"
         [PyInt 41] [] in_flow
    = (Ok (scheduled_at 9000000),
       mkWorld example_task (Some (mkFlowRunContext "flow-run-1")) None
         [ ev_set_task_run_state "task-run-1" (new_State RUNNING);
           ev_fn [PyInt 41] [];
           ev_set_task_run_state "task-run-1" (completed_state (PyInt 42));
           ev_print "Awaiting scheduled start time...";
           ev_now;
           ev_sleep 1;
           ev_set_task_run_state "task-run-1" (new_State RETRYING) ]))
    by (vm_compute; reflexivity).
  split; [exact Hrun|]. split; [reflexivity|]. split; [reflexivity|].
  split; [vm_compute; reflexivity|].
  intros Hclaim.
  destruct (Hclaim rescheduling spec_schema _ _ _ _ _ _ _ _ Hrun)
    as (w0 & tst & _ & _ & Hsched).
  discriminate Hsched.
Qed.

(** C2, at a callable that calls [sys.exit(1)]: SystemExit is not an
    instance of [Exception], so it leaves the loop and [_run], and no
    FAILED state is proposed. *)
Lemma run_lets_SystemExit_through :
  fn_behaviour accepting_exit (inside "task-run-1" "flow-run-1" started)
               (fn (self started)) [PyInt 41] []
  = Raises (SystemExit "1") /\
  _run (schema := spec_schema) accepting_exit 3 "task-run-1" "flow-run-1"
       [PyInt 41] [] in_flow
  = (Raise (SystemExit "1"), called) /\
  trace called
  = [ ev_set_task_run_state "task-run-1" (new_State RUNNING);
      ev_fn [PyInt 41] [] ] /\
  ~ (forall (env : Env) (schema : StateSchema) fuel task_run_id flow_run_id
            args kwargs w e w',
       _run env fuel task_run_id flow_run_id args kwargs w = (Raise e, w') ->
       forall world f a k, fn_behaviour env world f a k <> Raises e).
Proof.
  assert (Hrun :
    _run (schema := spec_schema) accepting_exit 3 "task-run-1" "flow-run-1"
         [PyInt 41] [] in_flow
    = (Raise (SystemExit "1"), called))
    by (vm_compute; reflexivity).
  split; [reflexivity|]. split; [exact Hrun|]. split; [reflexivity|].
  intros Hclaim.
  apply (Hclaim accepting_exit spec_schema _ _ _ _ _ _ _ _ Hrun
                in_flow add_one [] []).
  reflexivity.
Qed.

(** C7, in a task run whose worker sees no flow-run context: the call is
    made inside a task-run context, and the error is the one of the
    outside-a-flow case. *)
Lemma call_in_task_without_flow :
  is_Some (task_run_context in_task_only) /\
  __call__ accepting [PyInt 1] [] in_task_only
  = (Raise (RuntimeError outside_flow_message), in_task_only) /\
  ~ (forall (env : Env) args kwargs w,
       is_Some (task_run_context w) ->
       exists msg,
         __call__ env args kwargs w = (Raise (RuntimeError msg), w) /\
         msg <> outside_flow_message).
Proof.
  split; [eexists; reflexivity|]. split; [reflexivity|].
  intros Hclaim.
  destruct (Hclaim accepting [PyInt 1] [] in_task_only) as (msg & Hcall & Hmsg).
  - eexists; reflexivity.
  - apply Hmsg. change (__call__ accepting [PyInt 1] [] in_task_only)
      with (@Raise PrefectFuture (RuntimeError outside_flow_message),
            in_task_only) in Hcall.
    injection Hcall as He. unfold RuntimeError in He. congruence.
Qed.

(** * More of the module *)

Section MoreFacts.

Context (env : Env) {schema : StateSchema}.

(** ** What a run leaves behind *)


(** X2. In the world the callable runs in, a call of a task is refused
    before anything is registered: with the usage error of a call from
    within a task when a flow-run context is visible there, and with the
    one of a call outside a flow when none is. *)
Theorem nested_call_refused task_run_id flow_run_id w args kwargs :
  __call__ env args kwargs (inside task_run_id flow_run_id w)
  = (Raise (RuntimeError
              (match flow_run_context w with
               | Some _ => within_task_message
               | None => outside_flow_message
               end)),
     inside task_run_id flow_run_id w).
Proof.
  rewrite call_reply. cbn [inside flow_run_context task_run_context].
  destruct (flow_run_context w); reflexivity.
Qed.

(** ** The call surface, step by step *)

(** X3. A call in a flow goes through with whatever the authority answers
    to the PENDING proposal, an ABORT verdict included: the answer is not
    looked at.  The run is registered with the task as it is before the
    call, PENDING is proposed for the run that was registered, that run
    is submitted with the arguments of the call, in this order, and the
    future is the executor's. *)
Theorem call_submits_whatever_the_verdict
    args kwargs w flow_ctx task_run_id response future :
  flow_run_context w = Some flow_ctx ->
  task_run_context w = None ->
  remote_create_task_run env w (self w) (flow_run_id flow_ctx)
  = Returns task_run_id ->
  let registered :=
    log (ev_create_task_run (self w) (flow_run_id flow_ctx)) w in
  remote_set_task_run_state env registered task_run_id (new_State PENDING)
  = Returns response ->
  let pending :=
    log (ev_set_task_run_state task_run_id (new_State PENDING)) registered in
  let job := mkSubmission task_run_id (flow_run_id flow_ctx) args kwargs in
  executor_submit env pending task_run_id job = Returns future ->
  exists w',
    __call__ env args kwargs w = (Ok future, w') /\
    trace w'
    = trace w ++ [ ev_create_task_run (self w) (flow_run_id flow_ctx);
                   ev_set_task_run_state task_run_id (new_State PENDING);
                   ev_submit task_run_id job ] /\
    self w' = with_dynamic_key (self w) (dynamic_key (self w) + 1).
Proof.
  intros Hflow Htask Hcreate registered Hpending pending job Hsubmit.
  rewrite call_reply, Hflow, Htask. cbv zeta.
  rewrite Hcreate. fold registered. rewrite Hpending. fold pending job.
  rewrite Hsubmit. eexists. split; [reflexivity|]. split; [|reflexivity].
  cbn [trace log pending registered]. rewrite <- !app_assoc. reflexivity.
Qed.

(** What a call that returned a future has added to the trace. *)
Lemma call_Ok_trace args kwargs w future w' :
  __call__ env args kwargs w = (Ok future, w') ->
  exists flow_ctx task_run_id,
    trace w'
    = trace w
      ++ [ ev_create_task_run (self w) (flow_run_id flow_ctx);
           ev_set_task_run_state task_run_id (new_State PENDING);
           ev_submit task_run_id
             (mkSubmission task_run_id (flow_run_id flow_ctx) args kwargs) ].
Proof.
  rewrite call_reply.
  destruct (flow_run_context w) as [flow_ctx|]; [|discriminate].
  destruct (task_run_context w); [discriminate|].
  cbv zeta.
  destruct (remote_create_task_run env w _ _) as [task_run_id|];
    [|discriminate].
  repeat (case_reply; [|discriminate]).
  intros [= <- <-]. exists flow_ctx, task_run_id.
  cbn [trace log]. rewrite <- !app_assoc. reflexivity.
Qed.

Lemma call_each_le calls :
  forall w, (fst (call_each env calls w) <= length calls)%nat.
Proof.
  induction calls as [|[args kwargs] calls IH]; intros w; cbn [call_each].
  - reflexivity.
  - destruct (__call__ env args kwargs w) as [[future|e|] w1].
    + specialize (IH w1). destruct (call_each env calls w1) as [m w2].
      cbn in *. lia.
    + specialize (IH w1). cbn. lia.
    + specialize (IH w1). cbn. lia.
Qed.

(** X4. When every call of a sequence of calls returns a future, the
    runs are registered with the dynamic keys k, k + 1, k + 2, ..., one
    per call and in the order of the calls, where k is the dynamic key of
    the task before the first call: no two of these runs share one. *)
Theorem calls_register_consecutive_keys calls :
  forall w w',
    call_each env calls w = (length calls, w') ->
    exists added,
      trace w' = trace w ++ added /\
      registered_keys added
      = keys_from (dynamic_key (self w)) (length calls).
Proof.
  induction calls as [|[args kwargs] calls IH]; intros w w'; cbn [call_each].
  - intros [= <-]. exists []. split; [symmetry; apply app_nil_r|reflexivity].
  - destruct (__call__ env args kwargs w) as [[future|e|] w1] eqn:Hcall.
    + destruct (call_each env calls w1) as [m w2] eqn:Hrest.
      intros [= -> <-]. apply IH in Hrest as (added & Hadded & Hkeys).
      destruct (call_Ok_trace _ _ _ _ _ Hcall) as (flow_ctx & id & Htrace).
      apply call_Ok in Hcall as (Hself & _).
      eexists. split.
      * rewrite Hadded, Htrace, <- app_assoc. reflexivity.
      * unfold registered_keys in *. rewrite omap_app, Hkeys, Hself.
        reflexivity.
    + intros Hrest. pose proof (call_each_le calls w1) as Hle.
      rewrite Hrest in Hle. cbn in Hle. lia.
    + intros Hrest. pose proof (call_each_le calls w1) as Hle.
      rewrite Hrest in Hle. cbn in Hle. lia.
Qed.

(** X5. When a call fails after the run was registered (the PENDING
    proposal or the submission raises), the exception leaves the call,
    the registration stays in the trace, and the dynamic key is not
    incremented: the next call registers the task with the same dynamic
    key again. *)
Theorem call_failure_after_registration
    args kwargs w flow_ctx task_run_id e w' :
  flow_run_context w = Some flow_ctx ->
  task_run_context w = None ->
  remote_create_task_run env w (self w) (flow_run_id flow_ctx)
  = Returns task_run_id ->
  __call__ env args kwargs w = (Raise e, w') ->
  (exists rest,
     trace w'
     = trace w ++ ev_create_task_run (self w) (flow_run_id flow_ctx) :: rest) /\
  self w' = self w /\
  (forall args' kwargs',
     exists rest,
       trace (snd (__call__ env args' kwargs' w'))
       = trace w' ++ ev_create_task_run (self w) (flow_run_id flow_ctx) :: rest).
Proof.
  intros Hflow Htask Hcreate Hcall.
  destruct (call_not_Ok _ _ _ _ _ _ Hcall) as (Hself & Hflow' & Htask');
    [discriminate|].
  split; [|split; [exact Hself|]].
  - rewrite call_reply, Hflow, Htask in Hcall. cbv zeta in Hcall.
    rewrite Hcreate in Hcall. revert Hcall.
    repeat (case_reply; [|intros [= <- <-]; eexists; cbn [trace log];
                          rewrite <- ?app_assoc; reflexivity]).
    discriminate.
  - intros args' kwargs'. rewrite call_reply, Hflow', Hflow, Htask', Htask.
    cbv zeta. rewrite Hself.
    destruct (remote_create_task_run env w' (self w) (flow_run_id flow_ctx))
      as [id|e1].
    2:{ exists []. reflexivity. }
    repeat (case_reply; [|eexists; cbn [snd trace log];
                          rewrite <- ?app_assoc; reflexivity]).
    eexists. cbn [snd trace log]. rewrite <- ?app_assoc. reflexivity.
Qed.

(** ** The calls of a run *)

Lemma adds_refl P w : adds P w w.
Proof. exists []. split; [symmetry; apply app_nil_r|constructor]. Qed.

Lemma adds_trans P w1 w2 w3 : adds P w1 w2 -> adds P w2 w3 -> adds P w1 w3.
Proof.
  intros (c1 & H1 & F1) (c2 & H2 & F2). exists (c1 ++ c2). split.
  - rewrite H2, H1, app_assoc. reflexivity.
  - apply Forall_app. split; assumption.
Qed.

Lemma adds_log (P : Event -> Prop) ev w : P ev -> adds P w (log ev w).
Proof. intros HP. exists [ev]. split; [reflexivity|]. repeat constructor. exact HP. Qed.

Lemma adds_log_l (P : Event -> Prop) ev w w' :
  P ev -> adds P (log ev w) w' -> adds P w w'.
Proof. intros HP. apply adds_trans, adds_log, HP. Qed.

Lemma perform_world {A} ev (answer : World -> Reply A) w r w' :
  perform ev answer w = (r, w') -> w' = log ev w.
Proof. unfold perform. destruct (answer w); intros [= <- <-]; reflexivity. Qed.

Lemma print_world line w r w' :
  print line w = (r, w') -> w' = log (ev_print line) w.
Proof. apply perform_world. Qed.

Lemma now_world w r w' : now env w = (r, w') -> w' = log ev_now w.
Proof. apply perform_world. Qed.

Lemma sleep_world seconds w r w' :
  sleep seconds w = (r, w') -> w' = log (ev_sleep seconds) w.
Proof. apply perform_world. Qed.

Section OneRun.

Variables (task_run_id flow_run_id : UUID).
Variables (args : list PyObj) (kwargs : list (string * PyObj)).

Local Abbreviation P := (run_event task_run_id args kwargs).

Lemma propose_state_adds state w :
  adds P w (snd (propose_state env task_run_id state w)).
Proof.
  destruct (propose_state env task_run_id state w) as [r w'] eqn:H.
  apply propose_state_world in H as ->. apply adds_log. reflexivity.
Qed.

Lemma run_fn_adds w :
  adds P w (snd (run_fn env task_run_id flow_run_id args kwargs w)).
Proof.
  rewrite run_fn_reply.
  destruct (fn_behaviour env _ _ _ _) as [v|e]; apply adds_log; split;
    reflexivity.
Qed.

Lemma negotiate_adds continue tst w :
  (forall state w1, adds P w1 (snd (continue state w1))) ->
  adds P w (snd (negotiate env continue task_run_id tst w)).
Proof.
  intros Hk. unfold negotiate. unfold bind at 1.
  pose proof (propose_state_adds tst w) as H2.
  destruct (propose_state env task_run_id tst w) as [[[st'|]|e|] w2];
    cbn [snd] in *; try exact H2.
  eapply adds_trans; [exact H2|].
  destruct (is_scheduled st'); [|apply Hk].
  unfold bind, print, now, sleep, perform; cbn.
  destruct (scheduled_time (state_details st')) as [t|]; cbn.
  - apply (adds_log_l P (ev_print "Awaiting scheduled start time..."));
      [reflexivity|].
    apply (adds_log_l P ev_now); [exact I|].
    match goal with
    | |- context [log (ev_sleep ?n) _] =>
        apply (adds_log_l P (ev_sleep n)); [apply Z.le_max_r|]
    end.
    match goal with
    | |- context [propose_state env task_run_id Retrying ?w3] =>
        pose proof (propose_state_adds Retrying w3) as H3;
        destruct (propose_state env task_run_id Retrying w3)
          as [[state''|e|] w4]; cbn [snd] in *
    end; try exact H3.
    eapply adds_trans; [exact H3|apply Hk].
  - apply (adds_log_l P (ev_print "Awaiting scheduled start time..."));
      [reflexivity|].
    apply (adds_log_l P ev_now); [exact I|]. apply adds_refl.
Qed.

Lemma while_running_adds fuel :
  forall state w,
    adds P w
      (snd (while_running env fuel task_run_id flow_run_id args kwargs state w)).
Proof.
  induction fuel as [|fuel IH]; intros [st|] w; cbn [while_running];
    try apply adds_refl.
  - destruct (is_running st); apply adds_refl.
  - destruct (is_running st); [|apply adds_refl].
    unfold loop_body, bind.
    pose proof (run_fn_adds w) as H1.
    destruct (run_fn env task_run_id flow_run_id args kwargs w)
      as [[tst|e|] w1]; cbn [snd] in *; try exact H1.
    eapply adds_trans; [exact H1|]. apply negotiate_adds, IH.
Qed.

(** X6. Every call a run makes, however it ends, is one of these: a
    proposal for its own task run, a call of the callable with the
    arguments the run was given (the same at every attempt), the
    announcement of a wait, a reading of the clock, or a sleep of a
    non-negative number of seconds.  A run registers nothing and submits
    nothing. *)
Theorem run_calls fuel w :
  exists calls,
    trace (snd (_run env fuel task_run_id flow_run_id args kwargs w))
    = trace w ++ calls /\
    Forall (run_event task_run_id args kwargs) calls.
Proof.
  unfold _run, bind.
  pose proof (propose_state_adds (new_State RUNNING) w) as Hp.
  destruct (propose_state env task_run_id (new_State RUNNING) w)
    as [[state|e|] w1]; cbn [snd] in *; try exact Hp.
  eapply adds_trans; [exact Hp|]. apply while_running_adds.
Qed.

Lemma count_app p l1 l2 : count p (l1 ++ l2) = (count p l1 + count p l2)%nat.
Proof. unfold count. rewrite List.filter_app, length_app. reflexivity. Qed.

Lemma while_running_counts fuel :
  forall state w st w',
    while_running env fuel task_run_id flow_run_id args kwargs state w
    = (Ok st, w') ->
    exists calls,
      trace w' = trace w ++ calls /\
      count is_proposal calls
      = (count is_attempt calls + count is_wait calls)%nat.
Proof.
  induction fuel as [|fuel IH]; intros [s|] w st w'; cbn [while_running];
    try discriminate.
  - destruct (is_running s); [discriminate|]. intros [= <- <-].
    exists []. split; [symmetry; apply app_nil_r|reflexivity].
  - destruct (is_running s).
    2:{ intros [= <- <-]. exists [].
        split; [symmetry; apply app_nil_r|reflexivity]. }
    unfold loop_body.
    intros (tst & w1 & Hfn & Hneg)%bind_Ok_inv.
    apply run_fn_Ok in Hfn as [_ ->].
    unfold negotiate in Hneg.
    apply bind_Ok_inv in Hneg as ([st'|] & w2 & Hp & Hrest);
      [|discriminate].
    apply propose_state_world in Hp as ->.
    destruct (is_scheduled st').
    + apply bind_Ok_inv in Hrest as (_ & w3 & ->%print_world & Hrest).
      apply bind_Ok_inv in Hrest as (t & w4 & ->%now_world & Hrest).
      destruct (scheduled_time (state_details st')); [|discriminate].
      apply bind_Ok_inv in Hrest as (_ & w5 & ->%sleep_world & Hrest).
      apply bind_Ok_inv in Hrest
        as (state'' & w6 & ->%propose_state_world & Hrest).
      apply IH in Hrest as (calls & -> & Hcount).
      eexists. split.
      * cbn [trace log]. rewrite <- !app_assoc. cbn [app]. reflexivity.
      * change (?a :: ?b :: ?c :: ?d :: ?e :: ?f :: calls)
          with ([a; b; c; d; e; f] ++ calls).
        rewrite !count_app, Hcount. cbn. lia.
    + apply IH in Hrest as (calls & -> & Hcount).
      eexists. split.
      * cbn [trace log]. rewrite <- !app_assoc. cbn [app]. reflexivity.
      * change (?a :: ?b :: calls) with ([a; b] ++ calls).
        rewrite !count_app, Hcount. cbn. lia.
Qed.

(** X7. When [_run] returns a state, the proposals it made are one for
    RUNNING, one for each call of the callable and one for each wait:
    every attempt was reported and every wait was followed by its
    RETRYING proposal. *)
Theorem run_proposals_counted fuel w st w' :
  _run env fuel task_run_id flow_run_id args kwargs w = (Ok st, w') ->
  exists calls,
    trace w' = trace w ++ calls /\
    count is_proposal calls
    = (1 + count is_attempt calls + count is_wait calls)%nat.
Proof.
  unfold _run. intros (state & w1 & Hp & Hloop)%bind_Ok_inv.
  apply propose_state_world in Hp as ->.
  apply while_running_counts in Hloop as (calls & -> & Hcount).
  eexists. split.
  - cbn [trace log]. rewrite <- !app_assoc. cbn [app]. reflexivity.
  - change (?a :: calls) with ([a] ++ calls).
    rewrite !count_app, Hcount. cbn. lia.
Qed.

End OneRun.

(** ** Proposals that fail, and states that send the run round again *)

(** X8. A proposal that raises ends the run at once with that exception,
    which is the ABORT error or the exception of the client's call.  At
    the RUNNING proposal the callable has not been invoked; at the
    terminal proposal the outcome of the callable is not reported again;
    at the RETRYING proposal the wait has been served. *)
Theorem failed_proposal_ends_run fuel task_run_id flow_run_id args kwargs :
  (forall w e w1,
     propose_state env task_run_id (new_State RUNNING) w = (Raise e, w1) ->
     _run env fuel task_run_id flow_run_id args kwargs w = (Raise e, w1) /\
     trace w1
     = trace w ++ [ev_set_task_run_state task_run_id (new_State RUNNING)]) /\
  (forall st w tst w1 e w2,
     is_running st = true ->
     run_fn env task_run_id flow_run_id args kwargs w = (Ok tst, w1) ->
     propose_state env task_run_id tst w1 = (Raise e, w2) ->
     while_running env (S fuel) task_run_id flow_run_id args kwargs (Some st) w
     = (Raise e, w2) /\
     trace w2
     = trace w ++ [ev_fn args kwargs; ev_set_task_run_state task_run_id tst]) /\
  (forall st w tst w1 st' w2 t e w4,
     is_running st = true ->
     run_fn env task_run_id flow_run_id args kwargs w = (Ok tst, w1) ->
     propose_state env task_run_id tst w1 = (Ok (Some st'), w2) ->
     is_scheduled st' = true ->
     scheduled_time (state_details st') = Some t ->
     let printed := log (ev_print "Awaiting scheduled start time...") w2 in
     let slept :=
       log (ev_sleep (Z.max (in_seconds (t - pendulum_now env printed)) 0))
           (log ev_now printed) in
     propose_state env task_run_id Retrying slept = (Raise e, w4) ->
     while_running env (S fuel) task_run_id flow_run_id args kwargs (Some st) w
     = (Raise e, w4)) /\
  (forall state w e w1,
     propose_state env task_run_id state w = (Raise e, w1) ->
     e = RuntimeError "ABORT is not yet handled" \/
     remote_set_task_run_state env w task_run_id state = Raises e).
Proof.
  split; [|split; [|split]].
  - intros w e w1 Hp. split.
    + unfold _run, bind. rewrite Hp. reflexivity.
    + apply propose_state_world in Hp as ->. reflexivity.
  - intros st w tst w1 e w2 Hrun Hfn Hp. split.
    + rewrite (while_running_unfold _ _ _ _ _ _ _ Hrun).
      unfold loop_body, bind. rewrite Hfn. unfold negotiate, bind.
      rewrite Hp. reflexivity.
    + apply run_fn_Ok in Hfn as [_ ->].
      apply propose_state_world in Hp as ->.
      cbn [trace log]. rewrite <- app_assoc. reflexivity.
  - intros st w tst w1 st' w2 t e w4 Hrun Hfn Hp Hsched Htime printed slept
      Hretry.
    rewrite (while_running_unfold _ _ _ _ _ _ _ Hrun).
    unfold loop_body. unfold bind at 1. rewrite Hfn.
    rewrite (negotiate_scheduled _ _ _ _ _ _ _ _ Hp Hsched Htime).
    fold printed slept. unfold bind. rewrite Hretry. reflexivity.
  - intros state w e w1. apply propose_state_Raise.
Qed.

(** X12. When the state that comes back for a terminal proposal is not
    SCHEDULED but running, the next thing the run does is call the
    callable again, with the same arguments: no wait and no RETRYING
    proposal come in between. *)
Theorem running_answer_restarts fuel task_run_id flow_run_id args kwargs
    st w tst w1 st' w2 :
  is_running st = true ->
  run_fn env task_run_id flow_run_id args kwargs w = (Ok tst, w1) ->
  propose_state env task_run_id tst w1 = (Ok (Some st'), w2) ->
  is_scheduled st' = false ->
  is_running st' = true ->
  exists calls,
    trace (snd (while_running env (S (S fuel)) task_run_id flow_run_id
                              args kwargs (Some st) w))
    = trace w ++ [ev_fn args kwargs; ev_set_task_run_state task_run_id tst]
              ++ ev_fn args kwargs :: calls.
Proof.
  intros Hrun Hfn Hp Hsched Hrun'.
  rewrite (while_running_unfold _ _ _ _ _ _ _ Hrun).
  unfold loop_body. unfold bind at 1. rewrite Hfn.
  rewrite (negotiate_settled _ _ _ _ _ _ _ Hp Hsched).
  rewrite (while_running_unfold _ _ _ _ _ _ _ Hrun').
  destruct (loop_body_extends env
              (while_running env fuel task_run_id flow_run_id args kwargs)
              task_run_id flow_run_id args kwargs w2
              (while_running_extends env fuel task_run_id flow_run_id
                                     args kwargs))
    as (_ & _ & _ & calls & Hc).
  exists calls. rewrite Hc.
  apply run_fn_Ok in Hfn as [_ ->]. apply propose_state_world in Hp as ->.
  cbn [trace log]. rewrite <- !app_assoc. reflexivity.
Qed.

(** ** The constructor and the decorator *)

Context {hashing : Hashing}.


(** X10. The two ways of using the decorator build the same task:
    [task(fn, name=..., ...)] gives what the function returned by
    [task(name=..., ...)] gives when it is applied to [fn], the same
    TypeError included when [fn] cannot be called; and the function
    applied to [None] raises the TypeError of a missing argument. *)
Theorem task_forms_agree name' kwargs :
  exists make,
    task FnNone name' kwargs = Ok (Decorator make) /\
    (forall f,
       f <> FnNone ->
       task f name' kwargs
       = match make f with
         | Ok t => Ok (TaskObject t)
         | Raise e => Raise e
         | Diverge => Diverge
         end) /\
    (forall f t,
       task (FnCallable f) name' kwargs = Ok (TaskObject t) <->
       make (FnCallable f) = Ok t) /\
    make FnNone
    = Raise (TypeError "__init__() missing 1 required argument: 'fn'").
Proof.
  eexists. split; [reflexivity|]. split; [|split].
  - intros [|b|f] Hf; [congruence|reflexivity|reflexivity].
  - intros f t. cbn [task].
    destruct (Task_from (FnCallable f) name' kwargs) as [t'|e|]; split;
      congruence.
  - reflexivity.
Qed.

(** X13. A task declared without a name, with the empty name, or with
    the name of its callable is the same task: the three have the same
    name, the one of the callable unless the callable carries a [name]
    attribute of its own, and the same key. *)
Theorem default_name_is_fn_name f description' tags' retries delay :
  exists t,
    __init__ None (FnCallable f) description' tags' retries delay = Ok t /\
    __init__ (Some EmptyString) (FnCallable f) description' tags' retries delay
    = Ok t /\
    __init__ (Some (fn_name f)) (FnCallable f) description' tags' retries delay
    = Ok t /\
    (fn_dict f !! "name" = None -> name t = fn_name f).
Proof.
  unfold __init__. eexists. split; [reflexivity|]. split; [reflexivity|].
  split.
  - destruct (fn_name f); reflexivity.
  - intros ->. reflexivity.
Qed.

(** X14. [update_wrapper] copies the attributes of the callable onto the
    task after the name and the description have been assigned: a
    callable that carries a [name] attribute gives the task that name,
    whatever name the constructor was given, and the key is computed
    from it; a [description] attribute replaces the description in the
    same way. *)
Theorem fn_attributes_override name' f description' tags' retries delay t :
  __init__ name' (FnCallable f) description' tags' retries delay = Ok t ->
  (forall n, fn_dict f !! "name" = Some n ->
             name t = n /\ task_key t = derive_task_key n f (tags t)) /\
  (forall d, fn_dict f !! "description" = Some d -> description t = Some d).
Proof.
  unfold __init__. intros [= <-]. cbn [name task_key tags description].
  split.
  - intros n ->. split; reflexivity.
  - intros d ->. reflexivity.
Qed.

(** ** The tags under the key *)

(** X11. The tag list that goes into the key is in ascending order, has
    no duplicates, and its members are the tags of the task: so it
    stands for the tag set and for nothing else, two tag sets with the
    same list being the same set. *)
Theorem sorted_tags_canonical (tags1 : gset string) :
  Sorted String.le (sorted_tags tags1) /\
  NoDup (sorted_tags tags1) /\
  (forall tag, tag ∈ sorted_tags tags1 <-> tag ∈ tags1) /\
  (forall tags2, sorted_tags tags1 = sorted_tags tags2 -> tags1 = tags2) /\
  (forall name' f,
     derive_task_key name' f tags1
     = stable_hash [name'; to_qualified_name f; str (sorted_tags tags1)]).
Proof.
  assert (Hperm : forall s : gset string, sorted_tags s ≡ₚ elements s).
  { intros s. unfold sorted_tags, sorted. rewrite merge_sort_Permutation.
    destruct (decide (s = ∅)) as [->|]; [|reflexivity].
    rewrite elements_empty. reflexivity. }
  split; [|split; [|split; [|split]]].
  - apply Sorted_merge_sort, _.
  - rewrite Hperm. apply NoDup_elements.
  - intros tag. rewrite Hperm. apply elem_of_elements.
  - intros tags2 Heq. apply set_eq. intros tag.
    rewrite <- !elem_of_elements, <- !Hperm, Heq. reflexivity.
  - reflexivity.
Qed.

End MoreFacts.

(** ** These properties on the example worlds *)

(** A call in a flow whose PENDING proposal is answered with ABORT. *)
Lemma call_submits_whatever_the_verdict_witness :
  exists w',
    __call__ aborting [PyInt 1] [] in_flow = (Ok (mkFuture "task-run-1"), w') /\
    trace w'
    = trace in_flow
      ++ [ ev_create_task_run (self in_flow) "flow-run-1";
           ev_set_task_run_state "task-run-1" (new_State PENDING);
           ev_submit "task-run-1"
             (mkSubmission "task-run-1" "flow-run-1" [PyInt 1] []) ] /\
    self w'
    = with_dynamic_key (self in_flow) (dynamic_key (self in_flow) + 1).
Proof.
  apply (call_submits_whatever_the_verdict aborting [PyInt 1] [] in_flow
           (mkFlowRunContext "flow-run-1") "task-run-1" abort
           (mkFuture "task-run-1"));
    reflexivity.
Defined.

(** Three calls in a flow register the keys 0, 1 and 2. *)
Lemma calls_register_consecutive_keys_witness :
  exists added,
    trace (snd (call_each accepting three_calls in_flow))
    = trace in_flow ++ added /\
    registered_keys added = keys_from 0 3.
Proof.
  apply (calls_register_consecutive_keys accepting three_calls in_flow
           (snd (call_each accepting three_calls in_flow))).
  vm_compute. reflexivity.
Defined.

(** A call whose PENDING proposal cannot be delivered. *)
Lemma call_failure_after_registration_witness :
  (exists rest,
     trace (snd (__call__ offline [PyInt 1] [] in_flow))
     = trace in_flow ++ ev_create_task_run (self in_flow) "flow-run-1" :: rest) /\
  self (snd (__call__ offline [PyInt 1] [] in_flow)) = self in_flow /\
  (forall args' kwargs',
     exists rest,
       trace (snd (__call__ offline args' kwargs'
                            (snd (__call__ offline [PyInt 1] [] in_flow))))
       = trace (snd (__call__ offline [PyInt 1] [] in_flow))
         ++ ev_create_task_run (self in_flow) "flow-run-1" :: rest).
Proof.
  apply (call_failure_after_registration offline [PyInt 1] [] in_flow
           (mkFlowRunContext "flow-run-1") "task-run-1"
           (ConnectionError "connection refused")
           (snd (__call__ offline [PyInt 1] [] in_flow)));
    reflexivity.
Defined.

(** The run that was rescheduled once: four proposals, two attempts, one
    wait. *)
Lemma run_proposals_counted_witness :
  exists calls,
    trace (snd (_run (schema := spec_schema) retrying_once 2 "task-run-1"
                     "flow-run-1" [PyInt 41] [] in_flow))
    = trace in_flow ++ calls /\
    count is_proposal calls
    = (1 + count is_attempt calls + count is_wait calls)%nat.
Proof.
  apply (run_proposals_counted (schema := spec_schema) retrying_once
           "task-run-1" "flow-run-1" [PyInt 41] [] 2 in_flow
           (completed_state (PyInt 42))).
  vm_compute. reflexivity.
Defined.

(** An aborted RUNNING proposal, and a terminal proposal that cannot be
    delivered. *)
Lemma failed_proposal_ends_run_witness :
  (_run (schema := spec_schema) aborting 5 "task-run-1" "flow-run-1"
        [PyInt 41] [] in_flow
   = (Raise (RuntimeError "ABORT is not yet handled"), started) /\
   trace started
   = trace in_flow ++ [ev_set_task_run_state "task-run-1" (new_State RUNNING)]) /\
  (while_running (schema := spec_schema) unreachable 6 "task-run-1"
                 "flow-run-1" [PyInt 41] [] (Some (new_State RUNNING)) started
   = (Raise (ConnectionError "connection refused"),
      proposed (completed_state (PyInt 42))) /\
   trace (proposed (completed_state (PyInt 42)))
   = trace started
     ++ [ ev_fn [PyInt 41] [];
          ev_set_task_run_state "task-run-1" (completed_state (PyInt 42)) ]).
Proof.
  split.
  - apply (proj1 (failed_proposal_ends_run (schema := spec_schema) aborting 5
                    "task-run-1" "flow-run-1" [PyInt 41] [])).
    reflexivity.
  - apply (proj1 (proj2 (failed_proposal_ends_run (schema := spec_schema)
                           unreachable 5 "task-run-1" "flow-run-1"
                           [PyInt 41] []))
             (new_State RUNNING) started (completed_state (PyInt 42)) called);
      reflexivity.
Defined.

(** The authority that answers COMPLETED with RUNNING: the callable is
    called a second time straight away. *)
Lemma running_answer_restarts_witness :
  exists calls,
    trace (snd (while_running (schema := spec_schema) restarting 2
                              "task-run-1" "flow-run-1" [PyInt 41] []
                              (Some (new_State RUNNING)) started))
    = trace started
      ++ [ ev_fn [PyInt 41] [];
           ev_set_task_run_state "task-run-1" (completed_state (PyInt 42)) ]
      ++ ev_fn [PyInt 41] [] :: calls.
Proof.
  apply (running_answer_restarts (schema := spec_schema) restarting 0
           "task-run-1" "flow-run-1" [PyInt 41] [] (new_State RUNNING) started
           (completed_state (PyInt 42)) called (new_State RUNNING)
           (proposed (completed_state (PyInt 42))));
    reflexivity.
Defined.


(** A task named "increment" over a callable that carries the attributes
    [name] and [description]. *)
Lemma fn_attributes_override_witness :
  exists t,
    __init__ (Some "increment") (FnCallable labelled) (Some "Increments.")
             None 0 0 = Ok t /\
    name t = "plus_one" /\
    task_key t = derive_task_key "plus_one" labelled (tags t) /\
    description t = Some "Plus one.".
Proof.
  eexists. split; [reflexivity|].
  destruct (fn_attributes_override (hashing := example_hashing)
              (Some "increment") labelled (Some "Increments.") None 0 0 _
              eq_refl) as [Hname Hdescription].
  destruct (Hname "plus_one" eq_refl) as [Hn Hk].
  split; [exact Hn|]. split; [exact Hk|].
  exact (Hdescription "Plus one." eq_refl).
Defined.
